(** * lcd44780: HD44780U character LCD behind a PCF8574 I2C backpack

    A shallow embedding of [lcd44780.c] and the properties of its transfer
    protocol, cursor addressing, bounds checking and initialisation.

    Conventions of the embedding.
    - A C [char] is represented by its 8-bit pattern, an integer in
      [0, 256); every assignment to a [char] variable is written with
      [to_char].  All operations the driver applies to chars are bitwise, so
      the pattern written to the bus does not depend on the signedness of
      [char].
    - A [uint8_t] is an integer in [0, 256); a conversion to [uint8_t]
      (assignment, parameter passing) is written with [to_uint8].
    - [int] variables holding statuses, lengths and loop counters are
      integers; strings are the lists of their characters before the
      terminating NUL, and their lengths are taken to fit in an [int].
    - The driver's effects are threaded through a [world]: the three mutable
      globals and the chronological trace of what the driver did to its
      environment (bytes written to the I2C device, sleeps, lines printed on
      stderr).  The status returned by the I2C transport is not decided by
      the driver: it is a parameter of the development.
    - Reading [rowstart] outside its four entries has no defined behaviour
      in C; the embedding stops there with [OutOfBounds], which keeps the
      index and the world in which the read was attempted. *)

From Stdlib Require Import ZArith String List Lia Bool.
Import ListNotations.
Local Open Scope Z_scope.

(** ** Constants of lcd44780.c *)

Definition ROWTOOLOW : Z := -1000.
Definition ROWTOOHIGH : Z := -1001.
Definition COLOUTOFRANGE : Z := -1002.
Definition COLTOOLOW : Z := -1003.
Definition COLTOOHIGH : Z := -1004.

Definition ORIGIN : Z := 1.

Definition CLEARDISPLAY : Z := 0x01.
Definition CURSORHOME : Z := 0x02.
Definition ENTRYMODESET : Z := 0x04.
Definition DISPLAYCONTROL : Z := 0x08.
Definition CURSORMOVE : Z := 0x10.
Definition FUNCTIONSET : Z := 0x20.
Definition CGRAMSETADDR : Z := 0x40.
Definition DDRAMSETADDR : Z := 0x80.

Definition ENTRYDEC : Z := 0x00.
Definition ENTRYINC : Z := 0x01.
Definition ENTRYRIGHT : Z := 0x00.
Definition ENTRYLEFT : Z := 0x02.

Definition BLINKOFF : Z := 0x00.
Definition BLINKON : Z := 0x01.
Definition CURSOROFF : Z := 0x00.
Definition CURSORON : Z := 0x02.
Definition DISPLAYOFF : Z := 0x00.
Definition DISPLAYON : Z := 0x04.

Definition CHAR5X8 : Z := 0x00.
Definition CHAR5X10 : Z := 0x04.
Definition ONELINE : Z := 0x00.
Definition TWOLINE : Z := 0x08.
Definition FOURBIT : Z := 0x00.
Definition EIGHTBIT : Z := 0x10.

Definition BACKLIGHT : Z := 0x08.
Definition ENABLE : Z := 0x04.
Definition READWRITE : Z := 0x02.
Definition REGISTERSET : Z := 0x01.

(** ** Machine integers *)

Definition to_uint8 (v : Z) : Z := v mod 256.
Definition to_char (v : Z) : Z := v mod 256.

Definition is_byte (v : Z) : Prop := 0 <= v < 256.

(** ** The world the driver runs in *)

Inductive event : Type :=
| I2cWrite (b : Z)                      (* i2c_write_device(pi,fd,&b,1) *)
| Nanosleep (sec nsec : Z)              (* nanosleep(&t,NULL) *)
| Stderr (msg : string) (errnum : Z).   (* fprintf(stderr,...) *)

Record world : Type := mkWorld {
  bl44780 : Z;          (* static char bl44780 *)
  lcdrows : Z;          (* static uint8_t lcdrows *)
  lcdcols : Z;          (* static uint8_t lcdcols *)
  trace : list event    (* everything done so far, oldest first *)
}.

(** The program's globals as the loader leaves them. *)
Definition initial_world : world := mkWorld BACKLIGHT 0 0 [].

Definition rowstart : list Z := [0x00; 0x40; 0x14; 0x54].

(** The bytes that reached the bus, oldest first. *)
Fixpoint bus_writes (t : list event) : list Z :=
  match t with
  | [] => []
  | I2cWrite b :: t' => b :: bus_writes t'
  | _ :: t' => bus_writes t'
  end.

(** ** A state monad that can stop on an out-of-bounds array read *)

Inductive outcome (A : Type) : Type :=
| Ok (a : A) (w : world)
| OutOfBounds (idx : Z) (w : world).
Arguments Ok {A} a w.
Arguments OutOfBounds {A} idx w.

Definition M (A : Type) : Type := world -> outcome A.

(** The world a run left, however it ended. *)
Definition world_of {A} (o : outcome A) : world :=
  match o with
  | Ok _ w => w
  | OutOfBounds _ w => w
  end.

Definition ret {A} (a : A) : M A := fun w => Ok a w.

Definition bind {A B} (m : M A) (k : A -> M B) : M B :=
  fun w => match m w with
           | Ok a w' => k a w'
           | OutOfBounds idx w' => OutOfBounds idx w'
           end.

Declare Scope lcd_scope.
Delimit Scope lcd_scope with lcd.
Notation "x <- c ;; k" := (bind c (fun x => k))
  (at level 61, c at next level, right associativity) : lcd_scope.
Notation "c ;; k" := (bind c (fun _ => k))
  (at level 61, right associativity) : lcd_scope.
Local Open Scope lcd_scope.

Definition get {A} (field : world -> A) : M A := fun w => Ok (field w) w.

Definition set_bl44780 (v : Z) : M unit :=
  fun w => Ok tt (mkWorld v (lcdrows w) (lcdcols w) (trace w)).
Definition set_lcdrows (v : Z) : M unit :=
  fun w => Ok tt (mkWorld (bl44780 w) v (lcdcols w) (trace w)).
Definition set_lcdcols (v : Z) : M unit :=
  fun w => Ok tt (mkWorld (bl44780 w) (lcdrows w) v (trace w)).

Definition emit (e : event) : M unit :=
  fun w => Ok tt (mkWorld (bl44780 w) (lcdrows w) (lcdcols w) (trace w ++ [e])).

Definition nanosleep (sec nsec : Z) : M unit := emit (Nanosleep sec nsec).

(** [rowstart[row]]: defined for the four entries of the table only. *)
Definition rowstart_at (row : Z) : M Z :=
  fun w => if (0 <=? row) && (row <? 4)
           then Ok (nth (Z.to_nat row) rowstart 0) w
           else OutOfBounds row w.

(** ** C strings *)

(** A string is given by the list of its characters before the terminating
    NUL, so a list that stands for a string holds no 0; [strlen] counts
    them all.  (The empty list is the empty string; a buffer that starts
    with NUL is the empty string too, not the list [[0]].) *)
Definition strlen (s : list Z) : Z := Z.of_nat (length s).

(** [strncpy(buf,src,n)]: the first [n] characters of [src], padded with
    NULs when [src] is shorter. *)
Definition strncpy (src : list Z) (n : Z) : list Z :=
  firstn (Z.to_nat n) src ++ repeat 0 (Z.to_nat n - length src).

(** ** Vocabulary of the statements *)

(** [w] after the driver did [evs], globals untouched. *)
Definition extend (w : world) (evs : list event) : world :=
  mkWorld (bl44780 w) (lcdrows w) (lcdcols w) (trace w ++ evs).

(** The states the globals can be in: [bl44780] is only ever assigned
    [0x00] or [BACKLIGHT], and the geometry is held in two [uint8_t]. *)
Definition wf_world (w : world) : Prop :=
  (bl44780 w = 0 \/ bl44780 w = BACKLIGHT) /\
  is_byte (lcdrows w) /\ is_byte (lcdcols w).

(** The two bytes of one enable strobe around the byte [b]. *)
Definition strobe (b : Z) : list Z :=
  [ to_char (Z.lor b ENABLE);
    to_char (Z.land (to_char (Z.lor b ENABLE)) (Z.lnot ENABLE)) ].

Definition cmd8_bytes (bl data : Z) : list Z :=
  strobe (Z.lor (Z.land (Z.shiftl data 4) 0xF0) bl).

Definition cmd4_bytes (bl data : Z) : list Z :=
  strobe (Z.lor (to_char (Z.land data 0xF0)) bl) ++
  strobe (Z.lor (to_char (Z.land (Z.shiftl data 4) 0xF0)) bl).

Definition data_bytes (bl data : Z) : list Z :=
  strobe (Z.lor (Z.lor (to_char (Z.land data 0xF0)) bl) REGISTERSET) ++
  strobe (Z.lor (Z.lor (to_char (Z.land (Z.shiftl data 4) 0xF0)) bl) REGISTERSET).

(** [b1], [b2] carry the nibble [nib] on the four data lines: [b1] has the
    enable bit, [b2] has not, and they agree on every other bit. *)
Definition nibble_transfer (nib b1 b2 : Z) : Prop :=
  is_byte b1 /\ is_byte b2 /\
  Z.shiftr b1 4 = nib /\
  Z.land b1 ENABLE = ENABLE /\
  Z.land b2 ENABLE = 0 /\
  Z.lxor b1 b2 = ENABLE.

(** Four bus bytes that carry [data] as its high nibble, then its low nibble. *)
Definition framed (data : Z) (bs : list Z) : Prop :=
  exists h1 h2 l1 l2,
    bs = [h1; h2; l1; l2] /\
    nibble_transfer (Z.shiftr data 4) h1 h2 /\
    nibble_transfer (Z.land data 0x0F) l1 l2.

(** The 4-bit commands a sequence of bus bytes carries, four bytes each:
    the data lines of the two latched (enable low) bytes. *)
Fixpoint decode_cmd4 (bs : list Z) : list Z :=
  match bs with
  | _ :: h2 :: _ :: l2 :: rest =>
      Z.lor (Z.land h2 0xF0) (Z.shiftr l2 4) :: decode_cmd4 rest
  | _ => []
  end.

(** An entry-mode-set instruction: 0b000001xx. *)
Definition is_entry_mode_set (c : Z) : bool := Z.shiftr c 2 =? 1.

(** A transport on which every write succeeds. *)
Definition bus_ok : list Z -> Z := fun _ => 0.

(** The 256 bytes. *)
Definition all_bytes : list Z := map Z.of_nat (seq 0 256).

(** Boolean versions, to check a fact on every byte by evaluation. *)
Definition nibble_transferb (nib b1 b2 : Z) : bool :=
  (0 <=? b1) && (b1 <? 256) && (0 <=? b2) && (b2 <? 256) &&
  (Z.shiftr b1 4 =? nib) &&
  (Z.land b1 ENABLE =? ENABLE) &&
  (Z.land b2 ENABLE =? 0) &&
  (Z.lxor b1 b2 =? ENABLE).

Definition framedb (data : Z) (bs : list Z) : bool :=
  match bs with
  | [h1; h2; l1; l2] =>
      nibble_transferb (Z.shiftr data 4) h1 h2 &&
      nibble_transferb (Z.land data 0x0F) l1 l2
  | _ => false
  end.

Fixpoint eqb_bytes (l1 l2 : list Z) : bool :=
  match l1, l2 with
  | [], [] => true
  | a :: l1', b :: l2' => (a =? b) && eqb_bytes l1' l2'
  | _, _ => false
  end.

(** The row-address table as the statements name it. *)
Definition rowBaseAddress (rowIdx : Z) : Z := nth (Z.to_nat rowIdx) rowstart 0.

(** The bytes [m] wrote to the bus when run from [w]. *)
Definition sent_by (m : M Z) (w : world) : list Z :=
  skipn (length (bus_writes (trace w))) (bus_writes (trace (world_of (m w)))).

(** [char errcode[5][80]] of [lcd44780error_fprintf]. *)
Definition errcode : list string :=
  [ "Row number too low (less than ORIGIN) specified";
    "Row number too high (greater than ORIGIN+lcdrows) specified";
    "Column number out of range";
    "Column number too low (less than ORIGIN) specified";
    "Column number too high (greater than ORIGIN+lcdcols) specified" ]%string.

(** The line [lcd44780error_fprintf] prints for one of the driver's codes. *)
Definition refusal (code : Z) : event :=
  Stderr (nth (Z.to_nat ((-1 * code) - 1000)) errcode ""%string) code.

(** A call that refuses its position: the code comes back and the only
    thing done is the line on stderr. *)
Definition refuse (code : Z) (w : world) : outcome Z :=
  Ok code (extend w [refusal code]).

(** The row and column a caller's values denote once converted to the
    [uint8_t] parameters, and whether they are on the display. *)
Definition row_on_display (w : world) (row : Z) : Prop :=
  ORIGIN <= to_uint8 row <= ORIGIN + lcdrows w - 1.
Definition col_on_display (w : world) (col : Z) : Prop :=
  ORIGIN <= to_uint8 col <= ORIGIN + lcdcols w - 1.

(** A 20x4 display with the backlight on. *)
Definition lcd_4x20 : world := mkWorld BACKLIGHT 4 20 [].

(** "Bye!", the text the test program writes at row 1, column 19. *)
Definition bye : list Z := [66; 121; 101; 33].

(** "Hello World!", which the test program writes at row 1, column 5. *)
Definition hello : list Z :=
  [72; 101; 108; 108; 111; 32; 87; 111; 114; 108; 100; 33].

(** A transport whose first write fails with PI_I2C_WRITE_FAILED (-82) and
    whose later writes succeed. *)
Definition first_write_fails : list Z -> Z :=
  fun written => if (length written =? 1)%nat then -82 else 0.

(** A transfer of the nibble engine, with its payload. *)
Inductive transfer : Type :=
| Cmd8 (d : Z)
| Cmd4 (d : Z)
| Data (d : Z).

(** A call of the driver other than [lcd44780backlight]. *)
Inductive operation : Type :=
| Transfer (t : transfer)
| Init (rows cols : Z)
| Clear
| Home
| Str (text : list Z) (row col : Z)
| Chr (text : list Z) (row col : Z)
| SetDisplay (mode blink cursor : Z).

(** Every byte of [bs] has the backlight line as [bl] has it. *)
Definition backlit (bl : Z) (bs : list Z) : Prop :=
  Forall (fun x => Z.testbit x 3 = Z.testbit bl 3) bs.

(** [m] returned [code] from [w] without touching the bus: the way the
    driver refuses a position. *)
Definition rejected (m : M Z) (w : world) (code : Z) : Prop :=
  exists w', m w = Ok code w' /\ bus_writes (trace w') = bus_writes (trace w).

Definition sleep100 : event := Nanosleep 0 100000000.

(** What [lcd44780init] does to its environment, step by step, when the
    backlight byte is [bl]. *)
Definition init_events (bl : Z) : list event :=
  [sleep100] ++
  (map I2cWrite (cmd8_bytes bl 0x03) ++ [sleep100]) ++
  (map I2cWrite (cmd8_bytes bl 0x03) ++ [sleep100]) ++
  (map I2cWrite (cmd8_bytes bl 0x03) ++ [sleep100]) ++
  (map I2cWrite (cmd8_bytes bl 0x02) ++ [sleep100]) ++
  map I2cWrite (cmd4_bytes bl (Z.lor (Z.lor FUNCTIONSET FOURBIT) TWOLINE)) ++
  map I2cWrite (cmd4_bytes bl (Z.lor (Z.lor (Z.lor DISPLAYCONTROL DISPLAYOFF) CURSOROFF) BLINKOFF)) ++
  map I2cWrite (cmd4_bytes bl (Z.lor ENTRYMODESET ENTRYRIGHT)) ++
  (map I2cWrite (cmd4_bytes bl CLEARDISPLAY) ++ [sleep100]) ++
  map I2cWrite (cmd4_bytes bl (Z.lor (Z.lor (Z.lor DISPLAYCONTROL DISPLAYON) BLINKOFF) CURSOROFF)).

Section Driver.

(** The transport: the status [i2c_write_device] returns for a write, given
    every byte written to the device up to and including this one. *)
Variable i2c_status : list Z -> Z.

Definition i2c_write_device (buf : Z) : M Z :=
  fun w => let t := trace w ++ [I2cWrite buf] in
           Ok (i2c_status (bus_writes t))
              (mkWorld (bl44780 w) (lcdrows w) (lcdcols w) t).

(** ** Nibble transfers *)

Definition lcd44780writecmd8 (data : Z) : M Z :=
  bl <- get bl44780 ;;
  let data := to_char (Z.lor (Z.lor (Z.land (Z.shiftl data 4) 0xF0) bl) ENABLE) in
  i <- i2c_write_device data ;;
  let data := to_char (Z.land data (Z.lnot ENABLE)) in
  i <- i2c_write_device data ;;
  ret i.

Definition lcd44780writecmd4 (data : Z) : M Z :=
  let high := to_char (Z.land data 0xF0) in
  let low := to_char (Z.land (Z.shiftl data 4) 0xF0) in
  bl <- get bl44780 ;;
  let high := to_char (Z.lor (Z.lor high bl) ENABLE) in
  i <- i2c_write_device high ;;
  let high := to_char (Z.land high (Z.lnot ENABLE)) in
  i <- i2c_write_device high ;;
  bl <- get bl44780 ;;
  let low := to_char (Z.lor (Z.lor low bl) ENABLE) in
  i <- i2c_write_device low ;;
  let low := to_char (Z.land low (Z.lnot ENABLE)) in
  i <- i2c_write_device low ;;
  ret i.

Definition lcd44780writedata (data : Z) : M Z :=
  let high := to_char (Z.land data 0xF0) in
  let low := to_char (Z.land (Z.shiftl data 4) 0xF0) in
  bl <- get bl44780 ;;
  let high := to_char (Z.lor (Z.lor (Z.lor high bl) REGISTERSET) ENABLE) in
  i <- i2c_write_device high ;;
  let high := to_char (Z.land high (Z.lnot ENABLE)) in
  i <- i2c_write_device high ;;
  bl <- get bl44780 ;;
  let low := to_char (Z.lor (Z.lor (Z.lor low bl) REGISTERSET) ENABLE) in
  i <- i2c_write_device low ;;
  let low := to_char (Z.land low (Z.lnot ENABLE)) in
  i <- i2c_write_device low ;;
  ret i.

(** ** Display operations *)

Definition lcd44780setpos (row col : Z) : M Z :=
  base <- rowstart_at row ;;
  let curpos := to_uint8 (base + col) in
  let buf := to_char (Z.lor DDRAMSETADDR curpos) in
  i <- lcd44780writecmd4 buf ;;
  ret i.

Definition lcd44780error_fprintf (errnum : Z) : M unit :=
  if (errnum >? ROWTOOLOW) || (errnum <? COLTOOHIGH)
  then emit (Stderr "Unknown LCD HD44780U error number" errnum)
  else emit (Stderr (nth (Z.to_nat ((-1 * errnum) - 1000)) errcode ""%string) errnum).

(** The body of [for (count=0;count<len;count++) i=lcd44780writedata(buf[count])],
    over the [len] characters of [buf]. *)
Fixpoint write_chars (buf : list Z) (i : Z) : M Z :=
  match buf with
  | [] => ret i
  | c :: rest => i' <- lcd44780writedata c ;; write_chars rest i'
  end.

Definition lcd44780str (writebuf : list Z) (row col : Z) : M Z :=
  let row := to_uint8 row in
  let col := to_uint8 col in
  rows <- get lcdrows ;;
  cols <- get lcdcols ;;
  if row <? ORIGIN then
    lcd44780error_fprintf ROWTOOLOW ;; ret ROWTOOLOW
  else if row >? ORIGIN + rows - 1 then
    lcd44780error_fprintf ROWTOOHIGH ;; ret ROWTOOHIGH
  else if col <? ORIGIN then
    lcd44780error_fprintf COLTOOLOW ;; ret COLTOOLOW
  else if col >? ORIGIN + cols - 1 then
    lcd44780error_fprintf COLTOOHIGH ;; ret COLTOOHIGH
  else
    let len := strlen writebuf in
    let len := if len >? cols - col + ORIGIN then cols - col + ORIGIN else len in
    let buf := strncpy writebuf len in
    i <- lcd44780setpos (row - ORIGIN) (col - ORIGIN) ;;
    write_chars buf i.

Definition lcd44780chr (writebuf : list Z) (row col : Z) : M Z :=
  let row := to_uint8 row in
  let col := to_uint8 col in
  rows <- get lcdrows ;;
  cols <- get lcdcols ;;
  if row <? ORIGIN then
    lcd44780error_fprintf ROWTOOLOW ;; ret ROWTOOLOW
  else if row >? ORIGIN + rows - 1 then
    lcd44780error_fprintf ROWTOOHIGH ;; ret ROWTOOHIGH
  else if col <? ORIGIN then
    lcd44780error_fprintf COLTOOLOW ;; ret COLTOOLOW
  else if col >? ORIGIN + cols - 1 then
    lcd44780error_fprintf COLTOOHIGH ;; ret COLTOOHIGH
  else
    let buf := strncpy writebuf 1 in
    i <- lcd44780setpos (row - ORIGIN) (col - ORIGIN) ;;
    i <- lcd44780writedata (nth 0 buf 0) ;;
    ret i.

Definition lcd44780clear : M Z :=
  let buf := CLEARDISPLAY in
  i <- lcd44780writecmd4 buf ;;
  nanosleep 0 100000000 ;;
  ret i.

Definition lcd44780home : M Z :=
  let buf := CURSORHOME in
  i <- lcd44780writecmd4 buf ;;
  nanosleep 0 50000000 ;;
  ret i.

(** [for (count=1; count<=3; count++) { i=writecmd8(buf); nanosleep }],
    with [n] iterations left. *)
Fixpoint resync (n : nat) (buf i : Z) : M Z :=
  match n with
  | O => ret i
  | S n' =>
      i' <- lcd44780writecmd8 buf ;;
      nanosleep 0 100000000 ;;
      resync n' buf i'
  end.

Definition lcd44780init (rows cols : Z) : M Z :=
  set_lcdrows (to_uint8 rows) ;;
  set_lcdcols (to_uint8 cols) ;;
  nanosleep 0 100000000 ;;
  let buf := to_char (Z.land (Z.shiftr (Z.lor FUNCTIONSET EIGHTBIT) 4) 0x0F) in
  i <- resync 3 buf 0 ;;
  let buf := to_char (Z.land (Z.shiftr (Z.lor FUNCTIONSET FOURBIT) 4) 0x0F) in
  i <- lcd44780writecmd8 buf ;;
  nanosleep 0 100000000 ;;
  let buf := to_char (Z.lor (Z.lor FUNCTIONSET FOURBIT) TWOLINE) in
  i <- lcd44780writecmd4 buf ;;
  let buf := to_char (Z.lor (Z.lor (Z.lor DISPLAYCONTROL DISPLAYOFF) CURSOROFF) BLINKOFF) in
  i <- lcd44780writecmd4 buf ;;
  let buf := to_char (Z.lor ENTRYMODESET ENTRYRIGHT) in
  i <- lcd44780writecmd4 buf ;;
  lcd44780clear ;;
  let buf := to_char (Z.lor (Z.lor (Z.lor DISPLAYCONTROL DISPLAYON) BLINKOFF) CURSOROFF) in
  i <- lcd44780writecmd4 buf ;;
  ret i.

Definition lcd44780backlight (setting : Z) : M Z :=
  let setting := to_uint8 setting in
  (if setting =? 0 then set_bl44780 0x00 else set_bl44780 BACKLIGHT) ;;
  bl <- get bl44780 ;;
  i <- i2c_write_device bl ;;
  ret i.

Definition lcd44780setdisplay (mode blink cursor : Z) : M Z :=
  let mode := to_uint8 mode in
  let blink := to_uint8 blink in
  let cursor := to_uint8 cursor in
  let cmd := DISPLAYCONTROL in
  let cmd := to_char (if mode =? 0 then Z.lor cmd DISPLAYOFF else Z.lor cmd DISPLAYON) in
  let cmd := to_char (if blink =? 0 then Z.lor cmd BLINKOFF else Z.lor cmd BLINKON) in
  let cmd := to_char (if cursor =? 0 then Z.lor cmd CURSOROFF else Z.lor cmd CURSORON) in
  i <- lcd44780writecmd4 cmd ;;
  ret i.


(** ** Sequences of transfers *)

Definition run_transfer (t : transfer) : M Z :=
  match t with
  | Cmd8 d => lcd44780writecmd8 d
  | Cmd4 d => lcd44780writecmd4 d
  | Data d => lcd44780writedata d
  end.

Fixpoint run_transfers (ts : list transfer) (i : Z) : M Z :=
  match ts with
  | [] => ret i
  | t :: ts' => i' <- run_transfer t ;; run_transfers ts' i'
  end.

(** The bytes [t] puts on the bus when the backlight byte is [bl]. *)
Definition transfer_bytes (bl : Z) (t : transfer) : list Z :=
  match t with
  | Cmd8 d => cmd8_bytes bl d
  | Cmd4 d => cmd4_bytes bl d
  | Data d => data_bytes bl d
  end.

(** ** Sequences of operations *)

Definition run_operation (o : operation) : M Z :=
  match o with
  | Transfer t => run_transfer t
  | Init rows cols => lcd44780init rows cols
  | Clear => lcd44780clear
  | Home => lcd44780home
  | Str text row col => lcd44780str text row col
  | Chr text row col => lcd44780chr text row col
  | SetDisplay mode blink cursor => lcd44780setdisplay mode blink cursor
  end.

Fixpoint run_operations (ops : list operation) (i : Z) : M Z :=
  match ops with
  | [] => ret i
  | o :: ops' => i' <- run_operation o ;; run_operations ops' i'
  end.

(** ** Vocabulary over the driver's functions *)

(** The status a call returns is the transport's answer to the last write
    of the world it leaves. *)
Definition final (w' : world) : outcome Z :=
  Ok (i2c_status (bus_writes (trace w'))) w'.

(** The call [f data] from [w] makes exactly four bus writes, which carry
    [data] as two nibble transfers, and returns the status of the fourth. *)
Definition four_write_transfer (f : Z -> M Z) (data : Z) (w : world) : Prop :=
  exists bs,
    f data w = Ok (i2c_status (bus_writes (trace w) ++ bs))
                  (extend w (map I2cWrite bs)) /\
    framed data bs.

(** The command byte that addresses the 1-based position [row], [col]. *)
Definition position_command (row col : Z) : Z :=
  to_char (Z.lor DDRAMSETADDR (rowBaseAddress (row - ORIGIN) + (col - ORIGIN))).

(** The two public writers, which share their checks. *)
Definition both (P : (list Z -> Z -> Z -> M Z) -> Prop) : Prop :=
  P lcd44780str /\ P lcd44780chr.

Definition checks_position (f : list Z -> Z -> Z -> M Z) : Prop :=
  forall text row col w,
    (to_uint8 row < ORIGIN -> f text row col w = refuse ROWTOOLOW w) /\
    (ORIGIN <= to_uint8 row -> to_uint8 row > ORIGIN + lcdrows w - 1 ->
     f text row col w = refuse ROWTOOHIGH w) /\
    (row_on_display w row -> to_uint8 col < ORIGIN ->
     f text row col w = refuse COLTOOLOW w) /\
    (row_on_display w row -> ORIGIN <= to_uint8 col ->
     to_uint8 col > ORIGIN + lcdcols w - 1 ->
     f text row col w = refuse COLTOOHIGH w) /\
    (row_on_display w row -> col_on_display w col ->
     forall code, ~ rejected (f text row col) w code).

(** The 4-bit commands [lcd44780init] sends once the four 8-bit mode
    commands (eight bus writes) are out. *)
Definition init_commands (rows cols : Z) (w : world) : list Z :=
  decode_cmd4 (skipn 8 (sent_by (lcd44780init rows cols) w)).

(** * Properties *)

(** ** Lists, traces and bytes *)

Lemma bus_writes_app (t1 t2 : list event) :
  bus_writes (t1 ++ t2) = bus_writes t1 ++ bus_writes t2.
Proof.
  induction t1 as [|e t1 IH]; [reflexivity|].
  destruct e; cbn [bus_writes app]; now rewrite IH.
Qed.

Lemma bus_writes_map (bs : list Z) : bus_writes (map I2cWrite bs) = bs.
Proof. induction bs as [|b bs IH]; cbn; congruence. Qed.

Lemma extend_nil (w : world) : extend w [] = w.
Proof. destruct w; unfold extend; cbn. now rewrite app_nil_r. Qed.

Lemma extend_extend (w : world) (e1 e2 : list event) :
  extend (extend w e1) e2 = extend w (e1 ++ e2).
Proof. unfold extend; cbn. now rewrite app_assoc. Qed.

Lemma bus_writes_extend (w : world) (bs : list Z) :
  bus_writes (trace (extend w (map I2cWrite bs))) = bus_writes (trace w) ++ bs.
Proof. cbn. now rewrite bus_writes_app, bus_writes_map. Qed.

Lemma wf_extend (w : world) (evs : list event) :
  wf_world w -> wf_world (extend w evs).
Proof. intro H; exact H. Qed.

Lemma in_all_bytes (d : Z) : is_byte d -> In d all_bytes.
Proof.
  intros Hd. unfold all_bytes. apply in_map_iff.
  exists (Z.to_nat d). split; [unfold is_byte in Hd; lia|].
  apply in_seq. unfold is_byte in Hd. lia.
Qed.

(** A boolean fact checked on the 256 bytes holds of every byte. *)
Lemma byte_cases (P : Z -> bool) :
  forallb P all_bytes = true -> forall d, is_byte d -> P d = true.
Proof.
  intros H d Hd. rewrite forallb_forall in H. apply H, in_all_bytes, Hd.
Qed.

Lemma to_char_byte (v : Z) : is_byte (to_char v).
Proof. unfold is_byte, to_char. apply Z.mod_pos_bound. lia. Qed.

Lemma to_char_id (v : Z) : is_byte v -> to_char v = v.
Proof. unfold is_byte, to_char. intros H. now apply Z.mod_small. Qed.

Lemma to_char_land (v : Z) : to_char v = Z.land v 255.
Proof. unfold to_char. change 255 with (Z.ones 8). now rewrite Z.land_ones by lia. Qed.

(** ** What each transfer does *)

Ltac run_monad :=
  cbv [lcd44780writecmd8 lcd44780writecmd4 lcd44780writedata
       i2c_write_device bind ret get emit nanosleep
       set_bl44780 set_lcdrows set_lcdcols
       bl44780 lcdrows lcdcols trace extend].

Lemma writecmd8_run (d : Z) (w : world) :
  lcd44780writecmd8 d w =
  Ok (i2c_status (bus_writes (trace w) ++ cmd8_bytes (bl44780 w) d))
     (extend w (map I2cWrite (cmd8_bytes (bl44780 w) d))).
Proof.
  destruct w as [bl r c t]. run_monad.
  unfold cmd8_bytes, strobe. cbn [map].
  rewrite <- ?app_assoc, ?bus_writes_app. cbn [app bus_writes].
  rewrite <- ?app_assoc. reflexivity.
Qed.

Lemma writecmd4_run (d : Z) (w : world) :
  lcd44780writecmd4 d w =
  Ok (i2c_status (bus_writes (trace w) ++ cmd4_bytes (bl44780 w) d))
     (extend w (map I2cWrite (cmd4_bytes (bl44780 w) d))).
Proof.
  destruct w as [bl r c t]. run_monad.
  unfold cmd4_bytes, strobe. cbn [map app].
  rewrite <- ?app_assoc, ?bus_writes_app. cbn [app bus_writes].
  rewrite <- ?app_assoc. reflexivity.
Qed.

Lemma writedata_run (d : Z) (w : world) :
  lcd44780writedata d w =
  Ok (i2c_status (bus_writes (trace w) ++ data_bytes (bl44780 w) d))
     (extend w (map I2cWrite (data_bytes (bl44780 w) d))).
Proof.
  destruct w as [bl r c t]. run_monad.
  unfold data_bytes, strobe. cbn [map app].
  rewrite <- ?app_assoc, ?bus_writes_app. cbn [app bus_writes].
  rewrite <- ?app_assoc. reflexivity.
Qed.


(** ** The bytes of a transfer *)

Lemma nibble_transferb_ok (nib b1 b2 : Z) :
  nibble_transferb nib b1 b2 = true -> nibble_transfer nib b1 b2.
Proof.
  unfold nibble_transferb, nibble_transfer, is_byte.
  rewrite !andb_true_iff, !Z.eqb_eq, !Z.leb_le, !Z.ltb_lt. tauto.
Qed.

Lemma framedb_ok (data : Z) (bs : list Z) :
  framedb data bs = true -> framed data bs.
Proof.
  destruct bs as [|h1 [|h2 [|l1 [|l2 [|x bs]]]]]; cbn [framedb]; try discriminate.
  rewrite andb_true_iff. intros [Hh Hl].
  exists h1, h2, l1, l2. split; [reflexivity|].
  split; now apply nibble_transferb_ok.
Qed.

Lemma eqb_bytes_ok (l1 l2 : list Z) : eqb_bytes l1 l2 = true -> l1 = l2.
Proof.
  revert l2. induction l1 as [|a l1 IH]; intros [|b l2]; cbn; try discriminate.
  - reflexivity.
  - rewrite andb_true_iff, Z.eqb_eq. intros [-> H]. f_equal. now apply IH.
Qed.

(** Facts about bytes under either backlight state, by evaluation. *)
Ltac by_bytes Hbl Hd :=
  destruct Hbl as [-> | ->]; revert Hd;
  match goal with
  | |- is_byte ?d -> _ =>
      pattern d; revert d;
      match goal with
      | |- forall d, (fun x => is_byte x -> @?P x = true) d =>
          cbv beta; apply (byte_cases P); vm_compute; reflexivity
      end
  end.

Lemma cmd4_bytes_framedb (bl d : Z) :
  bl = 0 \/ bl = BACKLIGHT -> is_byte d -> framedb d (cmd4_bytes bl d) = true.
Proof. intros Hbl Hd. by_bytes Hbl Hd. Qed.

Lemma data_bytes_framedb (bl d : Z) :
  bl = 0 \/ bl = BACKLIGHT -> is_byte d -> framedb d (data_bytes bl d) = true.
Proof. intros Hbl Hd. by_bytes Hbl Hd. Qed.

Lemma cmd4_bytes_framed (bl d : Z) :
  bl = 0 \/ bl = BACKLIGHT -> is_byte d -> framed d (cmd4_bytes bl d).
Proof. intros. now apply framedb_ok, cmd4_bytes_framedb. Qed.

Lemma data_bytes_framed (bl d : Z) :
  bl = 0 \/ bl = BACKLIGHT -> is_byte d -> framed d (data_bytes bl d).
Proof. intros. now apply framedb_ok, data_bytes_framedb. Qed.

Lemma data_bytes_cmd4_bytes (bl d : Z) :
  bl = 0 \/ bl = BACKLIGHT -> is_byte d ->
  eqb_bytes (data_bytes bl d)
            (map (fun b => Z.lor b REGISTERSET) (cmd4_bytes bl d)) = true.
Proof. intros Hbl Hd. by_bytes Hbl Hd. Qed.

Lemma cmd4_bytes_command_register (bl d : Z) :
  bl = 0 \/ bl = BACKLIGHT -> is_byte d ->
  forallb (fun b => Z.land b REGISTERSET =? 0) (cmd4_bytes bl d) = true.
Proof. intros Hbl Hd. by_bytes Hbl Hd. Qed.

(** Reading the data lines of the latched bytes gives the byte back. *)
Lemma decode_cmd4_bytes (bl d : Z) :
  bl = 0 \/ bl = BACKLIGHT -> is_byte d ->
  eqb_bytes (decode_cmd4 (cmd4_bytes bl d)) [d] = true.
Proof. intros Hbl Hd. by_bytes Hbl Hd. Qed.

Lemma decode_data_bytes (bl d : Z) :
  bl = 0 \/ bl = BACKLIGHT -> is_byte d ->
  eqb_bytes (decode_cmd4 (data_bytes bl d)) [d] = true.
Proof. intros Hbl Hd. by_bytes Hbl Hd. Qed.

Lemma cmd4_bytes_length (bl d : Z) : length (cmd4_bytes bl d) = 4%nat.
Proof. reflexivity. Qed.

Lemma data_bytes_length (bl d : Z) : length (data_bytes bl d) = 4%nat.
Proof. reflexivity. Qed.

Lemma cmd8_bytes_length (bl d : Z) : length (cmd8_bytes bl d) = 2%nat.
Proof. reflexivity. Qed.

(** ** C1: the framing of a command or data byte *)

(** C1. Every 8-bit value given to [lcd44780writecmd4] or to
    [lcd44780writedata] goes out as exactly four bus writes: the high
    nibble with the enable bit set, the same byte with the enable bit
    cleared, then the low nibble in the same way; the two bytes of a nibble
    transfer differ in the enable bit only. *)
Theorem C1_two_nibble_transfers (data : Z) (w : world) :
  is_byte data -> wf_world w ->
  four_write_transfer lcd44780writecmd4 data w /\
  four_write_transfer lcd44780writedata data w.
Proof.
  intros Hd [Hbl _]. split.
  - exists (cmd4_bytes (bl44780 w) data). split.
    + apply writecmd4_run.
    + now apply cmd4_bytes_framed.
  - exists (data_bytes (bl44780 w) data). split.
    + apply writedata_run.
    + now apply data_bytes_framed.
Qed.

(** ** C5: command and data transfers differ in the register-select bit *)

(** C5. For every 8-bit value and either backlight state, the bytes
    [lcd44780writedata] writes are the bytes [lcd44780writecmd4] writes for
    the same value, in the same order, each with the register-select bit
    set in addition; the command bytes have that bit clear, and both calls
    make four bus writes. *)
Theorem C5_data_is_command_with_register_select (data : Z) (w : world) :
  is_byte data -> wf_world w ->
  exists bs,
    length bs = 4%nat /\
    Forall (fun b => Z.land b REGISTERSET = 0) bs /\
    lcd44780writecmd4 data w =
      Ok (i2c_status (bus_writes (trace w) ++ bs))
         (extend w (map I2cWrite bs)) /\
    lcd44780writedata data w =
      let bs' := map (fun b => Z.lor b REGISTERSET) bs in
      Ok (i2c_status (bus_writes (trace w) ++ bs'))
         (extend w (map I2cWrite bs')).
Proof.
  intros Hd [Hbl _]. exists (cmd4_bytes (bl44780 w) data).
  split; [reflexivity|]. split.
  - apply Forall_forall. intros b Hb.
    pose proof (cmd4_bytes_command_register _ _ Hbl Hd) as H.
    rewrite forallb_forall in H. apply Z.eqb_eq, H, Hb.
  - split; [apply writecmd4_run|].
    cbv zeta.
    rewrite <- (eqb_bytes_ok _ _ (data_bytes_cmd4_bytes _ _ Hbl Hd)).
    apply writedata_run.
Qed.


(** ** The backlight line in the bytes of a transfer *)

Lemma testbit_to_char (v n : Z) :
  0 <= n < 8 -> Z.testbit (to_char v) n = Z.testbit v n.
Proof.
  intros Hn. unfold to_char. change 256 with (2 ^ 8).
  apply Z.mod_pow2_bits_low. lia.
Qed.

(** An enable strobe leaves the backlight line as it is in [b]. *)
Lemma strobe_backlight (b : Z) :
  Forall (fun x => Z.testbit x 3 = Z.testbit b 3) (strobe b).
Proof.
  unfold strobe. repeat constructor.
  - rewrite testbit_to_char, Z.lor_spec by lia.
    change (Z.testbit ENABLE 3) with false. apply orb_false_r.
  - rewrite testbit_to_char, Z.land_spec, testbit_to_char, Z.lor_spec by lia.
    change (Z.testbit ENABLE 3) with false.
    change (Z.testbit (Z.lnot ENABLE) 3) with true.
    now rewrite orb_false_r, andb_true_r.
Qed.

Lemma nibble_backlight (v : Z) : Z.testbit (Z.land v 0xF0) 3 = false.
Proof.
  rewrite Z.land_spec. change (Z.testbit 0xF0 3) with false. apply andb_false_r.
Qed.

Lemma transfer_bytes_backlight (bl : Z) (t : transfer) :
  Forall (fun x => Z.testbit x 3 = Z.testbit bl 3) (transfer_bytes bl t).
Proof.
  destruct t as [d|d|d]; cbn [transfer_bytes];
    unfold cmd8_bytes, cmd4_bytes, data_bytes;
    rewrite ?Forall_app; repeat split;
    (eapply Forall_impl; [|apply strobe_backlight]);
    cbv beta; intros x ->;
    rewrite ?Z.lor_spec, ?testbit_to_char, ?nibble_backlight by lia;
    change (Z.testbit REGISTERSET 3) with false;
    rewrite ?orb_false_r; reflexivity.
Qed.

Lemma run_transfer_run (t : transfer) (w : world) :
  run_transfer t w =
  Ok (i2c_status (bus_writes (trace w) ++ transfer_bytes (bl44780 w) t))
     (extend w (map I2cWrite (transfer_bytes (bl44780 w) t))).
Proof.
  destruct t; cbn [run_transfer transfer_bytes];
    [apply writecmd8_run | apply writecmd4_run | apply writedata_run].
Qed.

Lemma run_transfers_run (ts : list transfer) (i : Z) (w : world) :
  exists j,
    run_transfers ts i w =
    Ok j (extend w (map I2cWrite (flat_map (transfer_bytes (bl44780 w)) ts))).
Proof.
  revert i w. induction ts as [|t ts IH]; intros i w.
  - exists i. cbn. unfold ret. now rewrite extend_nil.
  - cbn [run_transfers flat_map]. unfold bind. rewrite run_transfer_run.
    destruct (IH (i2c_status (bus_writes (trace w) ++ transfer_bytes (bl44780 w) t))
                 (extend w (map I2cWrite (transfer_bytes (bl44780 w) t)))) as [j Hj].
    exists j. rewrite Hj, extend_extend, map_app. reflexivity.
Qed.

Lemma backlight_run (setting : Z) (w : world) :
  lcd44780backlight setting w =
  let bl := if to_uint8 setting =? 0 then 0x00 else BACKLIGHT in
  Ok (i2c_status (bus_writes (trace w) ++ [bl]))
     (mkWorld bl (lcdrows w) (lcdcols w) (trace w ++ [I2cWrite bl])).
Proof.
  unfold lcd44780backlight. cbv zeta.
  destruct (to_uint8 setting =? 0); destruct w as [bl r c t]; run_monad;
    rewrite bus_writes_app; reflexivity.
Qed.

(** ** C4: cursor addressing *)

Lemma bind_ret {A} (m : M A) (w : world) : bind m ret w = m w.
Proof. unfold bind, ret. now destruct (m w). Qed.

Lemma to_uint8_land (v : Z) : to_uint8 v = Z.land v 255.
Proof. apply to_char_land. Qed.

(** Truncating the address to [uint8_t] before or-ing it into the command
    does not change the command byte. *)
Lemma setaddr_truncation (a : Z) :
  to_char (Z.lor DDRAMSETADDR (to_uint8 a)) = to_char (Z.lor DDRAMSETADDR a).
Proof.
  unfold to_uint8. fold (to_char a).
  rewrite !to_char_land, !Z.land_lor_distr_l.
  rewrite <- Z.land_assoc. reflexivity.
Qed.

Lemma setaddr_byte (a : Z) :
  is_byte a -> to_char (Z.lor DDRAMSETADDR a) = Z.lor DDRAMSETADDR a.
Proof.
  intros Ha. apply Z.eqb_eq. revert a Ha.
  apply (byte_cases (fun a => to_char (Z.lor DDRAMSETADDR a) =? Z.lor DDRAMSETADDR a)).
  vm_compute. reflexivity.
Qed.

Lemma setpos_run (row col : Z) (w : world) :
  0 <= row <= 3 ->
  lcd44780setpos row col w =
  lcd44780writecmd4 (to_char (Z.lor DDRAMSETADDR (rowBaseAddress row + col))) w.
Proof.
  intros Hrow. unfold lcd44780setpos, rowstart_at.
  unfold bind at 1.
  replace ((0 <=? row) && (row <? 4)) with true
    by (symmetry; apply andb_true_iff; split; [apply Z.leb_le|apply Z.ltb_lt]; lia).
  rewrite bind_ret, setaddr_truncation. reflexivity.
Qed.

Lemma setpos_out_of_bounds (row col : Z) (w : world) :
  ~ 0 <= row <= 3 -> lcd44780setpos row col w = OutOfBounds row w.
Proof.
  intros Hrow. unfold lcd44780setpos, rowstart_at. unfold bind at 1.
  replace ((0 <=? row) && (row <? 4)) with false; [reflexivity|].
  symmetry. apply andb_false_iff.
  destruct (Z.leb_spec 0 row); [right; apply Z.ltb_ge; lia | now left].
Qed.

(** C4. For a row index in 0..3 and any column index,
    [lcd44780setpos] is one call of the 4-bit command path,
    [lcd44780writecmd4], with the command byte
    [0x80 | (rowBaseAddress[rowIdx] + colIdx)] (as the 8-bit value a [char]
    holds; the value itself when the address fits in a byte), where
    [rowBaseAddress] is the table 0x00, 0x40, 0x14, 0x54. *)
Theorem C4_setpos_command_byte (rowIdx colIdx : Z) (w : world) :
  0 <= rowIdx <= 3 ->
  let addr := rowBaseAddress rowIdx + colIdx in
  map rowBaseAddress [0; 1; 2; 3] = [0x00; 0x40; 0x14; 0x54] /\
  lcd44780setpos rowIdx colIdx w =
    lcd44780writecmd4 (to_char (Z.lor 0x80 addr)) w /\
  (is_byte addr -> to_char (Z.lor 0x80 addr) = Z.lor 0x80 addr).
Proof.
  intros Hrow addr. split; [reflexivity|]. split.
  - now apply setpos_run.
  - apply setaddr_byte.
Qed.

(** ** Initialisation *)

Lemma clear_run (w : world) :
  lcd44780clear w =
  Ok (i2c_status (bus_writes (trace w) ++ cmd4_bytes (bl44780 w) CLEARDISPLAY))
     (extend w (map I2cWrite (cmd4_bytes (bl44780 w) CLEARDISPLAY) ++ [sleep100])).
Proof.
  unfold lcd44780clear. cbv zeta. unfold bind. rewrite writecmd4_run.
  unfold nanosleep, emit, ret. cbn [bl44780 lcdrows lcdcols trace extend].
  now rewrite <- app_assoc.
Qed.

Lemma writecmd8_final (d : Z) (w : world) :
  lcd44780writecmd8 d w = final (extend w (map I2cWrite (cmd8_bytes (bl44780 w) d))).
Proof. unfold final. now rewrite writecmd8_run, bus_writes_extend. Qed.

Lemma writecmd4_final (d : Z) (w : world) :
  lcd44780writecmd4 d w = final (extend w (map I2cWrite (cmd4_bytes (bl44780 w) d))).
Proof. unfold final. now rewrite writecmd4_run, bus_writes_extend. Qed.

Lemma writedata_final (d : Z) (w : world) :
  lcd44780writedata d w = final (extend w (map I2cWrite (data_bytes (bl44780 w) d))).
Proof. unfold final. now rewrite writedata_run, bus_writes_extend. Qed.

Lemma init_run (rows cols : Z) (w : world) :
  lcd44780init rows cols w =
  final (mkWorld (bl44780 w) (to_uint8 rows) (to_uint8 cols)
                 (trace w ++ init_events (bl44780 w))).
Proof.
  destruct w as [bl r c t].
  unfold lcd44780init, lcd44780clear. cbn [resync]. cbv zeta.
  unfold bind, set_lcdrows, set_lcdcols, nanosleep, emit, ret.
  cbn [bl44780 lcdrows lcdcols trace].
  repeat (rewrite ?writecmd8_final, ?writecmd4_final; unfold final at 1, extend;
          cbn [bl44780 lcdrows lcdcols trace]).
  unfold final. cbn [trace].
  match goal with
  | |- Ok (i2c_status (bus_writes ?a)) _ = Ok (i2c_status (bus_writes ?b)) _ =>
      replace a with b; [reflexivity|]
  end.
  unfold init_events. rewrite <- ?app_assoc. cbn [app]. rewrite <- ?app_assoc.
  reflexivity.
Qed.


(** ** Writing at a position: validation *)

Lemma error_fprintf_run (code : Z) (w : world) :
  COLTOOHIGH <= code <= ROWTOOLOW ->
  lcd44780error_fprintf code w = Ok tt (extend w [refusal code]).
Proof.
  intros Hc. unfold lcd44780error_fprintf.
  replace ((code >? ROWTOOLOW) || (code <? COLTOOHIGH)) with false; [reflexivity|].
  symmetry. apply orb_false_iff. split.
  - rewrite Z.gtb_ltb. apply Z.ltb_ge. lia.
  - apply Z.ltb_ge. lia.
Qed.

Lemma refusing (code : Z) (w : world) :
  COLTOOHIGH <= code <= ROWTOOLOW ->
  bind (lcd44780error_fprintf code) (fun _ => ret code) w = refuse code w.
Proof. intros Hc. unfold bind. now rewrite error_fprintf_run. Qed.

Lemma refuse_rejected (m : M Z) (code : Z) (w : world) :
  m w = refuse code w -> rejected m w code.
Proof.
  intros H. exists (extend w [refusal code]). split; [exact H|].
  cbn. rewrite bus_writes_app. cbn. apply app_nil_r.
Qed.

Lemma bind_get {A B} (field : world -> A) (k : A -> M B) (w : world) :
  bind (get field) k w = k (field w) w.
Proof. reflexivity. Qed.

(** The five ways through the checks of [lcd44780str] and [lcd44780chr]. *)
Ltac validation :=
  unfold row_on_display, col_on_display, ORIGIN;
  intros; cbv zeta; rewrite !bind_get;
  repeat match goal with
  | |- context [?a <? ?b] => destruct (Z.ltb_spec a b); try (unfold ORIGIN in *; lia)
  | |- context [?a >? ?b] => destruct (Z.gtb_spec a b); try (unfold ORIGIN in *; lia)
  end;
  try (apply refusing; unfold COLTOOHIGH, ROWTOOLOW, ROWTOOHIGH, COLTOOLOW; lia).

Lemma str_row_low (text : list Z) (row col : Z) (w : world) :
  to_uint8 row < ORIGIN -> lcd44780str text row col w = refuse ROWTOOLOW w.
Proof. unfold lcd44780str. validation. Qed.

Lemma str_row_high (text : list Z) (row col : Z) (w : world) :
  ORIGIN <= to_uint8 row -> to_uint8 row > ORIGIN + lcdrows w - 1 ->
  lcd44780str text row col w = refuse ROWTOOHIGH w.
Proof. unfold lcd44780str. validation. Qed.

Lemma str_col_low (text : list Z) (row col : Z) (w : world) :
  row_on_display w row -> to_uint8 col < ORIGIN ->
  lcd44780str text row col w = refuse COLTOOLOW w.
Proof. unfold lcd44780str. validation. Qed.

Lemma str_col_high (text : list Z) (row col : Z) (w : world) :
  row_on_display w row -> ORIGIN <= to_uint8 col ->
  to_uint8 col > ORIGIN + lcdcols w - 1 ->
  lcd44780str text row col w = refuse COLTOOHIGH w.
Proof. unfold lcd44780str. validation. Qed.

Lemma str_on_display (text : list Z) (row col : Z) (w : world) :
  row_on_display w row -> col_on_display w col ->
  lcd44780str text row col w =
  bind (lcd44780setpos (to_uint8 row - ORIGIN) (to_uint8 col - ORIGIN))
       (write_chars
          (strncpy text
             (if strlen text >? lcdcols w - to_uint8 col + ORIGIN
              then lcdcols w - to_uint8 col + ORIGIN else strlen text))) w.
Proof. unfold lcd44780str. validation; reflexivity. Qed.

Lemma chr_row_low (text : list Z) (row col : Z) (w : world) :
  to_uint8 row < ORIGIN -> lcd44780chr text row col w = refuse ROWTOOLOW w.
Proof. unfold lcd44780chr. validation. Qed.

Lemma chr_row_high (text : list Z) (row col : Z) (w : world) :
  ORIGIN <= to_uint8 row -> to_uint8 row > ORIGIN + lcdrows w - 1 ->
  lcd44780chr text row col w = refuse ROWTOOHIGH w.
Proof. unfold lcd44780chr. validation. Qed.

Lemma chr_col_low (text : list Z) (row col : Z) (w : world) :
  row_on_display w row -> to_uint8 col < ORIGIN ->
  lcd44780chr text row col w = refuse COLTOOLOW w.
Proof. unfold lcd44780chr. validation. Qed.

Lemma chr_col_high (text : list Z) (row col : Z) (w : world) :
  row_on_display w row -> ORIGIN <= to_uint8 col ->
  to_uint8 col > ORIGIN + lcdcols w - 1 ->
  lcd44780chr text row col w = refuse COLTOOHIGH w.
Proof. unfold lcd44780chr. validation. Qed.

Lemma chr_on_display (text : list Z) (row col : Z) (w : world) :
  row_on_display w row -> col_on_display w col ->
  lcd44780chr text row col w =
  bind (lcd44780setpos (to_uint8 row - ORIGIN) (to_uint8 col - ORIGIN))
       (fun _ => bind (lcd44780writedata (nth 0 (strncpy text 1) 0)) ret) w.
Proof. unfold lcd44780chr. validation; reflexivity. Qed.


(** ** Writing at a position: the transfers *)

Lemma write_chars_final (buf : list Z) (w : world) :
  write_chars buf (i2c_status (bus_writes (trace w))) w =
  final (extend w (map I2cWrite (flat_map (data_bytes (bl44780 w)) buf))).
Proof.
  revert w. induction buf as [|c buf IH]; intros w.
  - cbn. unfold ret, final. now rewrite extend_nil.
  - cbn [write_chars flat_map]. unfold bind.
    rewrite writedata_final. unfold final at 1.
    rewrite IH, extend_extend, map_app. reflexivity.
Qed.

Lemma strncpy_prefix (text : list Z) (n : Z) :
  n <= strlen text -> strncpy text n = firstn (Z.to_nat n) text.
Proof.
  unfold strncpy, strlen. intros Hn.
  replace (Z.to_nat n - length text)%nat with 0%nat by lia.
  apply app_nil_r.
Qed.

(** The characters [lcd44780str] writes at column [col]. *)
Lemma str_buffer (text : list Z) (cols col : Z) :
  strncpy text (if strlen text >? cols - col + ORIGIN
                then cols - col + ORIGIN else strlen text) =
  firstn (Z.to_nat (Z.min (strlen text) (cols - col + ORIGIN))) text.
Proof.
  destruct (Z.gtb_spec (strlen text) (cols - col + ORIGIN)).
  - rewrite Z.min_r by lia. apply strncpy_prefix. lia.
  - rewrite Z.min_l by lia. apply strncpy_prefix. lia.
Qed.

Lemma str_run (text : list Z) (row col : Z) (w : world) :
  row_on_display w row -> col_on_display w col -> to_uint8 row <= 4 ->
  lcd44780str text row col w =
  final (extend w (map I2cWrite
    (cmd4_bytes (bl44780 w) (position_command (to_uint8 row) (to_uint8 col)) ++
     flat_map (data_bytes (bl44780 w))
       (firstn (Z.to_nat (Z.min (strlen text)
                                (lcdcols w - to_uint8 col + ORIGIN))) text)))).
Proof.
  intros Hr Hc H4. rewrite str_on_display by assumption.
  unfold bind. rewrite setpos_run by (unfold row_on_display, ORIGIN in *; lia).
  rewrite writecmd4_final. unfold final at 1.
  rewrite write_chars_final, extend_extend, <- map_app, str_buffer.
  reflexivity.
Qed.

Lemma chr_run (text : list Z) (row col : Z) (w : world) :
  row_on_display w row -> col_on_display w col -> to_uint8 row <= 4 ->
  lcd44780chr text row col w =
  final (extend w (map I2cWrite
    (cmd4_bytes (bl44780 w) (position_command (to_uint8 row) (to_uint8 col)) ++
     data_bytes (bl44780 w) (nth 0 (strncpy text 1) 0)))).
Proof.
  intros Hr Hc H4. rewrite chr_on_display by assumption.
  unfold bind at 1. rewrite setpos_run by (unfold row_on_display, ORIGIN in *; lia).
  rewrite writecmd4_final. unfold final at 1.
  rewrite bind_ret, writedata_final, extend_extend, <- map_app.
  reflexivity.
Qed.

Lemma str_out_of_bounds (text : list Z) (row col : Z) (w : world) :
  row_on_display w row -> col_on_display w col -> 4 < to_uint8 row ->
  lcd44780str text row col w = OutOfBounds (to_uint8 row - ORIGIN) w.
Proof.
  intros Hr Hc H4. rewrite str_on_display by assumption.
  unfold bind. rewrite setpos_out_of_bounds by (unfold ORIGIN; lia).
  reflexivity.
Qed.

Lemma chr_out_of_bounds (text : list Z) (row col : Z) (w : world) :
  row_on_display w row -> col_on_display w col -> 4 < to_uint8 row ->
  lcd44780chr text row col w = OutOfBounds (to_uint8 row - ORIGIN) w.
Proof.
  intros Hr Hc H4. rewrite chr_on_display by assumption.
  unfold bind at 1. rewrite setpos_out_of_bounds by (unfold ORIGIN; lia).
  reflexivity.
Qed.

(** A call that got through the checks is not a refusal: it either wrote
    to the bus or stopped at the row table. *)
Lemma final_not_rejected (m : M Z) (w : world) (b : Z) (bs : list Z) (code : Z) :
  m w = final (extend w (map I2cWrite (b :: bs))) -> ~ rejected m w code.
Proof.
  intros Hm [w' [Hw' Hbus]]. rewrite Hm in Hw'. unfold final in Hw'.
  injection Hw' as _ <-. unfold extend in Hbus. cbn [trace] in Hbus.
  rewrite bus_writes_app in Hbus. cbn [map bus_writes] in Hbus.
  apply (f_equal (@length Z)) in Hbus. rewrite length_app in Hbus.
  cbn [length] in Hbus. lia.
Qed.

Lemma out_of_bounds_not_rejected (m : M Z) (w : world) (idx code : Z) :
  m w = OutOfBounds idx w -> ~ rejected m w code.
Proof. intros Hm [w' [Hw' _]]. congruence. Qed.

Lemma refuse_not_rejected (m : M Z) (w : world) (code code' : Z) :
  m w = refuse code w -> code <> code' -> ~ rejected m w code'.
Proof.
  intros Hm Hne [w' [Hw' _]]. rewrite Hm in Hw'. unfold refuse in Hw'.
  congruence.
Qed.

Lemma cmd4_bytes_cons (bl d : Z) : exists b bs, cmd4_bytes bl d = b :: bs.
Proof. unfold cmd4_bytes, strobe. cbn [app]. eauto. Qed.

Lemma str_on_display_not_rejected (text : list Z) (row col : Z) (w : world) (code : Z) :
  row_on_display w row -> col_on_display w col ->
  ~ rejected (lcd44780str text row col) w code.
Proof.
  intros Hr Hc. destruct (Z.le_gt_cases (to_uint8 row) 4) as [H4|H4].
  - pose proof (str_run text row col w Hr Hc H4) as Hrun.
    destruct (cmd4_bytes_cons (bl44780 w)
                (position_command (to_uint8 row) (to_uint8 col))) as [b [bs E]].
    rewrite E in Hrun. cbn [app] in Hrun.
    eapply final_not_rejected, Hrun.
  - eapply out_of_bounds_not_rejected. apply str_out_of_bounds; assumption.
Qed.

Lemma chr_on_display_not_rejected (text : list Z) (row col : Z) (w : world) (code : Z) :
  row_on_display w row -> col_on_display w col ->
  ~ rejected (lcd44780chr text row col) w code.
Proof.
  intros Hr Hc. destruct (Z.le_gt_cases (to_uint8 row) 4) as [H4|H4].
  - pose proof (chr_run text row col w Hr Hc H4) as Hrun.
    destruct (cmd4_bytes_cons (bl44780 w)
                (position_command (to_uint8 row) (to_uint8 col))) as [b [bs E]].
    rewrite E in Hrun. cbn [app] in Hrun.
    eapply final_not_rejected, Hrun.
  - eapply out_of_bounds_not_rejected. apply chr_out_of_bounds; assumption.
Qed.


(** ** C6: the backlight bit, through every operation *)

Lemma home_run (w : world) :
  lcd44780home w =
  Ok (i2c_status (bus_writes (trace w) ++ cmd4_bytes (bl44780 w) CURSORHOME))
     (extend w (map I2cWrite (cmd4_bytes (bl44780 w) CURSORHOME) ++
                [Nanosleep 0 50000000])).
Proof.
  unfold lcd44780home. cbv zeta. unfold bind. rewrite writecmd4_run.
  unfold nanosleep, emit, ret. cbn [bl44780 lcdrows lcdcols trace extend].
  now rewrite <- app_assoc.
Qed.

Lemma setdisplay_run (mode blink cursor : Z) (w : world) :
  exists cmd,
    lcd44780setdisplay mode blink cursor w =
    final (extend w (map I2cWrite (cmd4_bytes (bl44780 w) cmd))).
Proof.
  unfold lcd44780setdisplay. cbv zeta. eexists.
  rewrite bind_ret. apply writecmd4_final.
Qed.

(** The ways a call of [lcd44780str] or [lcd44780chr] can end. *)
Lemma str_shape (text : list Z) (row col : Z) (w : world) :
  (exists code, lcd44780str text row col w = refuse code w) \/
  (exists idx, lcd44780str text row col w = OutOfBounds idx w) \/
  (exists d cs, lcd44780str text row col w =
     final (extend w (map I2cWrite
       (cmd4_bytes (bl44780 w) d ++ flat_map (data_bytes (bl44780 w)) cs)))).
Proof.
  destruct (Z.lt_ge_cases (to_uint8 row) ORIGIN) as [H1|H1].
  { left. eexists. now apply str_row_low. }
  destruct (Z.lt_ge_cases (ORIGIN + lcdrows w - 1) (to_uint8 row)) as [H2|H2].
  { left. eexists. apply str_row_high; lia. }
  assert (Hrow : row_on_display w row) by (unfold row_on_display; lia).
  destruct (Z.lt_ge_cases (to_uint8 col) ORIGIN) as [H3|H3].
  { left. eexists. now apply str_col_low. }
  destruct (Z.lt_ge_cases (ORIGIN + lcdcols w - 1) (to_uint8 col)) as [H4|H4].
  { left. eexists. apply str_col_high; try assumption; lia. }
  assert (Hcol : col_on_display w col) by (unfold col_on_display; lia).
  right. destruct (Z.le_gt_cases (to_uint8 row) 4) as [H5|H5].
  - right. do 2 eexists. now apply str_run.
  - left. eexists. apply str_out_of_bounds; assumption || lia.
Qed.

Lemma chr_shape (text : list Z) (row col : Z) (w : world) :
  (exists code, lcd44780chr text row col w = refuse code w) \/
  (exists idx, lcd44780chr text row col w = OutOfBounds idx w) \/
  (exists d cs, lcd44780chr text row col w =
     final (extend w (map I2cWrite
       (cmd4_bytes (bl44780 w) d ++ flat_map (data_bytes (bl44780 w)) cs)))).
Proof.
  destruct (Z.lt_ge_cases (to_uint8 row) ORIGIN) as [H1|H1].
  { left. eexists. now apply chr_row_low. }
  destruct (Z.lt_ge_cases (ORIGIN + lcdrows w - 1) (to_uint8 row)) as [H2|H2].
  { left. eexists. apply chr_row_high; lia. }
  assert (Hrow : row_on_display w row) by (unfold row_on_display; lia).
  destruct (Z.lt_ge_cases (to_uint8 col) ORIGIN) as [H3|H3].
  { left. eexists. now apply chr_col_low. }
  destruct (Z.lt_ge_cases (ORIGIN + lcdcols w - 1) (to_uint8 col)) as [H4|H4].
  { left. eexists. apply chr_col_high; try assumption; lia. }
  assert (Hcol : col_on_display w col) by (unfold col_on_display; lia).
  right. destruct (Z.le_gt_cases (to_uint8 row) 4) as [H5|H5].
  - right. exists (position_command (to_uint8 row) (to_uint8 col)).
    exists [nth 0 (strncpy text 1) 0]. cbn [flat_map]. rewrite app_nil_r.
    now apply chr_run.
  - left. eexists. apply chr_out_of_bounds; assumption || lia.
Qed.

Lemma backlit_app (bl : Z) (l1 l2 : list Z) :
  backlit bl l1 -> backlit bl l2 -> backlit bl (l1 ++ l2).
Proof. intros H1 H2. apply Forall_app. now split. Qed.

Lemma backlit_cmd4 (bl d : Z) : backlit bl (cmd4_bytes bl d).
Proof. apply (transfer_bytes_backlight bl (Cmd4 d)). Qed.

Lemma backlit_cmd8 (bl d : Z) : backlit bl (cmd8_bytes bl d).
Proof. apply (transfer_bytes_backlight bl (Cmd8 d)). Qed.

Lemma backlit_data (bl : Z) (cs : list Z) :
  backlit bl (flat_map (data_bytes bl) cs).
Proof.
  apply Forall_flat_map, Forall_forall. intros c _.
  apply (transfer_bytes_backlight bl (Data c)).
Qed.

Lemma backlit_init (bl : Z) : backlit bl (bus_writes (init_events bl)).
Proof.
  unfold init_events. rewrite !bus_writes_app, !bus_writes_map.
  cbn [bus_writes sleep100 app].
  repeat (apply backlit_app; try apply backlit_cmd4; try apply backlit_cmd8).
Qed.

(** An operation leaves [bl44780] alone and writes backlit bytes only. *)
Lemma operation_backlit (o : operation) (w : world) :
  bl44780 (world_of (run_operation o w)) = bl44780 w /\
  exists bs,
    bus_writes (trace (world_of (run_operation o w))) =
      bus_writes (trace w) ++ bs /\
    backlit (bl44780 w) bs.
Proof.
  destruct o as [t|rows cols| | |text row col|text row col|mode blink cursor];
    cbn [run_operation].
  - rewrite run_transfer_run. cbn [world_of]. split; [reflexivity|].
    eexists. split; [apply bus_writes_extend|apply transfer_bytes_backlight].
  - rewrite init_run. unfold final. cbn [world_of bl44780 trace].
    split; [reflexivity|].
    eexists. split; [apply bus_writes_app|apply backlit_init].
  - rewrite clear_run. cbn [world_of]. split; [reflexivity|].
    exists (cmd4_bytes (bl44780 w) CLEARDISPLAY). split; [|apply backlit_cmd4].
    cbn [extend trace]. rewrite !bus_writes_app, bus_writes_map. cbn [bus_writes sleep100].
    now rewrite app_nil_r.
  - rewrite home_run. cbn [world_of]. split; [reflexivity|].
    exists (cmd4_bytes (bl44780 w) CURSORHOME). split; [|apply backlit_cmd4].
    cbn [extend trace]. rewrite !bus_writes_app, bus_writes_map. cbn [bus_writes].
    now rewrite app_nil_r.
  - destruct (str_shape text row col w) as [[c ->]|[[idx ->]|[d [cs ->]]]];
      unfold refuse, final; cbn [world_of].
    + split; [reflexivity|]. exists []. split; [|constructor].
      cbn [extend trace]. rewrite bus_writes_app. reflexivity.
    + split; [reflexivity|]. exists []. split; [|constructor].
      now rewrite app_nil_r.
    + split; [reflexivity|]. eexists. split; [apply bus_writes_extend|].
      apply backlit_app; [apply backlit_cmd4|apply backlit_data].
  - destruct (chr_shape text row col w) as [[c ->]|[[idx ->]|[d [cs ->]]]];
      unfold refuse, final; cbn [world_of].
    + split; [reflexivity|]. exists []. split; [|constructor].
      cbn [extend trace]. rewrite bus_writes_app. reflexivity.
    + split; [reflexivity|]. exists []. split; [|constructor].
      now rewrite app_nil_r.
    + split; [reflexivity|]. eexists. split; [apply bus_writes_extend|].
      apply backlit_app; [apply backlit_cmd4|apply backlit_data].
  - destruct (setdisplay_run mode blink cursor w) as [cmd ->].
    unfold final. cbn [world_of]. split; [reflexivity|].
    eexists. split; [apply bus_writes_extend|apply backlit_cmd4].
Qed.

Lemma operations_backlit (ops : list operation) (i : Z) (w : world) :
  bl44780 (world_of (run_operations ops i w)) = bl44780 w /\
  exists bs,
    bus_writes (trace (world_of (run_operations ops i w))) =
      bus_writes (trace w) ++ bs /\
    backlit (bl44780 w) bs.
Proof.
  revert i w. induction ops as [|o ops IH]; intros i w.
  - cbn. split; [reflexivity|]. exists []. split; [now rewrite app_nil_r|constructor].
  - cbn [run_operations]. unfold bind.
    destruct (operation_backlit o w) as (Hbl & bs & Hbs & Hlit).
    destruct (run_operation o w) as [i' w1|idx w1]; cbn [world_of] in *.
    + destruct (IH i' w1) as (Hbl' & bs' & Hbs' & Hlit').
      split; [congruence|].
      exists (bs ++ bs'). split.
      * rewrite Hbs', Hbs, app_assoc. reflexivity.
      * apply backlit_app; [exact Hlit|]. now rewrite <- Hbl.
    + split; [exact Hbl|]. exists bs. now split.
Qed.

(** C6.  The backlight flag is state of the driver.  After
    [lcd44780backlight setting], every byte that any later sequence of the
    driver's operations writes to the bus (the transfers
    [lcd44780writecmd8], [lcd44780writecmd4] and [lcd44780writedata], and
    the calls built on them) has the backlight bit (0x08) clear when
    [setting] is 0 and set when it is not, up to the next call of
    [lcd44780backlight]; so has the byte [lcd44780backlight] writes
    itself. *)
Theorem C6_backlight_bit_in_every_byte
    (setting : Z) (ops : list operation) (w : world) :
  is_byte setting ->
  exists i w1 b bs,
    lcd44780backlight setting w = Ok i w1 /\
    bus_writes (trace w1) = bus_writes (trace w) ++ [b] /\
    bus_writes (trace (world_of (run_operations ops i w1))) =
      bus_writes (trace w1) ++ bs /\
    Forall (fun x => Z.testbit x 3 = negb (setting =? 0)) (b :: bs).
Proof.
  intros Hs. rewrite backlight_run. cbv zeta.
  set (bl := if to_uint8 setting =? 0 then 0x00 else BACKLIGHT).
  set (w1 := mkWorld bl (lcdrows w) (lcdcols w) (trace w ++ [I2cWrite bl])).
  set (i := i2c_status (bus_writes (trace w) ++ [bl])).
  destruct (operations_backlit ops i w1) as (_ & bs & Hbs & Hlit).
  exists i, w1, bl, bs.
  split; [reflexivity|].
  split; [subst w1; cbn [trace]; now rewrite bus_writes_app|].
  split; [exact Hbs|].
  assert (Hbit : Z.testbit bl 3 = negb (setting =? 0)).
  { subst bl. unfold to_uint8. rewrite Z.mod_small by exact Hs.
    destruct (setting =? 0); reflexivity. }
  constructor; [exact Hbit|].
  eapply Forall_impl; [|exact Hlit].
  cbv beta. intros x ->. exact Hbit.
Qed.

(** ** When a position is refused *)

Lemma both_check_position : both checks_position.
Proof.
  split; intros text row col w; repeat split; intros.
  - now apply str_row_low.
  - now apply str_row_high.
  - now apply str_col_low.
  - now apply str_col_high.
  - now apply str_on_display_not_rejected.
  - now apply chr_row_low.
  - now apply chr_row_high.
  - now apply chr_col_low.
  - now apply chr_col_high.
  - now apply chr_on_display_not_rejected.
Qed.

(** Which code comes back without a bus write, and when. *)
Lemma rejected_iff (f : list Z -> Z -> Z -> M Z) :
  checks_position f ->
  forall text row col w code,
    rejected (f text row col) w code <->
    (to_uint8 row < ORIGIN /\ code = ROWTOOLOW) \/
    (ORIGIN <= to_uint8 row /\ to_uint8 row > ORIGIN + lcdrows w - 1 /\
     code = ROWTOOHIGH) \/
    (row_on_display w row /\ to_uint8 col < ORIGIN /\ code = COLTOOLOW) \/
    (row_on_display w row /\ ORIGIN <= to_uint8 col /\
     to_uint8 col > ORIGIN + lcdcols w - 1 /\ code = COLTOOHIGH).
Proof.
  intros Hf text row col w code.
  destruct (Hf text row col w) as (Hrl & Hrh & Hcl & Hch & Hok).
  split.
  - intros Hrej.
    destruct (Z.lt_ge_cases (to_uint8 row) ORIGIN) as [H1|H1].
    { left. split; [exact H1|].
      destruct (Z.eq_dec ROWTOOLOW code) as [E|E]; [now symmetry|].
      exfalso. exact (refuse_not_rejected _ _ _ _ (Hrl H1) E Hrej). }
    destruct (Z.lt_ge_cases (ORIGIN + lcdrows w - 1) (to_uint8 row)) as [H2|H2].
    { right; left. repeat split; try lia.
      destruct (Z.eq_dec ROWTOOHIGH code) as [E|E]; [now symmetry|].
      exfalso. refine (refuse_not_rejected _ _ _ _ (Hrh H1 _) E Hrej). lia. }
    assert (Hrow : row_on_display w row) by (unfold row_on_display; lia).
    destruct (Z.lt_ge_cases (to_uint8 col) ORIGIN) as [H3|H3].
    { right; right; left. repeat split; try assumption; try (apply Hrow).
      destruct (Z.eq_dec COLTOOLOW code) as [E|E]; [now symmetry|].
      exfalso. exact (refuse_not_rejected _ _ _ _ (Hcl Hrow H3) E Hrej). }
    destruct (Z.lt_ge_cases (ORIGIN + lcdcols w - 1) (to_uint8 col)) as [H4|H4].
    { right; right; right. repeat split; try assumption; try (apply Hrow); try lia.
      destruct (Z.eq_dec COLTOOHIGH code) as [E|E]; [now symmetry|].
      exfalso. refine (refuse_not_rejected _ _ _ _ (Hch Hrow H3 _) E Hrej). lia. }
    exfalso. apply (Hok Hrow) with (code := code); [|exact Hrej].
    unfold col_on_display. lia.
  - intros [(H & ->)|[(H1 & H2 & ->)|[(H1 & H2 & ->)|(H1 & H2 & H3 & ->)]]];
      apply refuse_rejected; auto.
Qed.

Lemma to_uint8_byte (v : Z) : is_byte (to_uint8 v).
Proof. apply to_char_byte. Qed.

Lemma to_uint8_id (v : Z) : is_byte v -> to_uint8 v = v.
Proof. apply to_char_id. Qed.

(** C2, as the driver has it.  Every row outside [ORIGIN, ORIGIN+rows-1]
    is refused by [lcd44780str] and [lcd44780chr] with ROWTOOLOW (-1000)
    when below and ROWTOOHIGH (-1001) when above, whatever the column;
    every column outside [ORIGIN, ORIGIN+cols-1] is refused with COLTOOLOW
    (-1003) or COLTOOHIGH (-1004) when the row is on the display (the row
    is checked first).  A refused call makes no bus write. *)
Theorem C2_refused_before_any_bus_write
    (text : list Z) (row col : Z) (w : world) :
  is_byte row -> is_byte col -> wf_world w ->
  both (fun f =>
    (row < ORIGIN -> rejected (f text row col) w ROWTOOLOW) /\
    (row > ORIGIN + lcdrows w - 1 -> rejected (f text row col) w ROWTOOHIGH) /\
    (ORIGIN <= row <= ORIGIN + lcdrows w - 1 ->
       (col < ORIGIN -> rejected (f text row col) w COLTOOLOW) /\
       (col > ORIGIN + lcdcols w - 1 -> rejected (f text row col) w COLTOOHIGH))).
Proof.
  intros Hr Hc (_ & Hrows & Hcols).
  destruct both_check_position as [Hs Hch].
  unfold is_byte in *.
  split; cbv beta; repeat split; intros;
    (apply rejected_iff; [assumption|]);
    unfold row_on_display, col_on_display;
    rewrite ?(to_uint8_id row), ?(to_uint8_id col) by (unfold is_byte; lia);
    unfold ORIGIN in *; lia.
Qed.


(** ** C10: what the unsigned parameters make of a caller's value *)

(** C10, as the driver has it.  The row and column parameters are
    [uint8_t] and ORIGIN is 1, so [lcd44780str] and [lcd44780chr] refuse
    with ROWTOOLOW exactly when the row is 0 once converted, and with
    COLTOOLOW exactly when the row is on the display and the column is 0
    once converted.  A negative value wraps modulo 256; when what it wraps
    to is not 0 and is off the display, the refusal is the too-high one
    (for the column, when the row is on the display).  A negative multiple
    of 256 wraps to 0 and is refused as too low. *)
Theorem C10_too_low_exactly_at_zero (text : list Z) (row col : Z) (w : world) :
  both (fun f =>
    (rejected (f text row col) w ROWTOOLOW <-> to_uint8 row = 0) /\
    (rejected (f text row col) w COLTOOLOW <->
       row_on_display w row /\ to_uint8 col = 0) /\
    (row < 0 -> to_uint8 row <> 0 -> ~ row_on_display w row ->
       rejected (f text row col) w ROWTOOHIGH) /\
    (col < 0 -> to_uint8 col <> 0 -> row_on_display w row ->
       ~ col_on_display w col ->
       rejected (f text row col) w COLTOOHIGH)).
Proof.
  destruct both_check_position as [Hs Hc].
  pose proof (to_uint8_byte row) as Hr. pose proof (to_uint8_byte col) as Hcb.
  unfold is_byte in Hr, Hcb.
  split; cbv beta; repeat split; intros;
    try (apply rejected_iff; [assumption|]);
    repeat match goal with
    | H : rejected _ _ _ |- _ => apply rejected_iff in H; [|assumption]
    end;
    unfold row_on_display, col_on_display, ORIGIN,
           ROWTOOLOW, ROWTOOHIGH, COLTOOLOW, COLTOOHIGH in *;
    lia.
Qed.

(** ** C3: what [lcd44780str] writes *)

Lemma flat_map_data_bytes_length (bl : Z) (cs : list Z) :
  length (flat_map (data_bytes bl) cs) = (4 * length cs)%nat.
Proof.
  induction cs as [|c cs IH]; [reflexivity|].
  cbn [flat_map]. rewrite length_app, IH, data_bytes_length. cbn [length]. lia.
Qed.

Lemma Forall_firstn_of {A} (P : A -> Prop) (n : nat) (l : list A) :
  Forall P l -> Forall P (firstn n l).
Proof.
  intros H. revert n. induction H as [|x l Hx Hl IH]; intros [|n]; cbn [firstn];
    constructor; auto.
Qed.

(** C3, as the driver has it.  For a position on the display whose row is
    one of the four rows of the address table, and any text,
    [lcd44780str] sets the cursor to the position with one command, then
    writes the first min(length text, cols - col + ORIGIN) characters of
    the text, in order, as data bytes and nothing else: a longer text is
    cut there, no error is returned and no second cursor command moves to
    another row.  Each character goes out as four bus writes, two nibble
    transfers.  The call returns the status of its last write. *)
Theorem C3_str_writes_what_fits (text : list Z) (row col : Z) (w : world) :
  wf_world w ->
  ORIGIN <= row <= ORIGIN + lcdrows w - 1 -> row <= 4 ->
  ORIGIN <= col <= ORIGIN + lcdcols w - 1 ->
  let n := Z.min (strlen text) (lcdcols w - col + ORIGIN) in
  let written := firstn (Z.to_nat n) text in
  lcd44780str text row col w =
    final (extend w (map I2cWrite
      (cmd4_bytes (bl44780 w) (position_command row col) ++
       flat_map (data_bytes (bl44780 w)) written))) /\
  strlen written = n /\
  length (flat_map (data_bytes (bl44780 w)) written) = (4 * length written)%nat /\
  (Forall is_byte text ->
   Forall (fun c => framed c (data_bytes (bl44780 w) c)) written).
Proof.
  intros (Hbl & Hrows & Hcols) Hr H4 Hc n written.
  unfold is_byte in Hrows, Hcols.
  assert (Er : to_uint8 row = row) by (apply to_uint8_id; unfold is_byte, ORIGIN in *; lia).
  assert (Ec : to_uint8 col = col) by (apply to_uint8_id; unfold is_byte, ORIGIN in *; lia).
  split; [|split; [|split]].
  - rewrite str_run; unfold row_on_display, col_on_display; rewrite ?Er, ?Ec;
      try assumption. reflexivity.
  - subst written n. unfold strlen. rewrite length_firstn.
    unfold ORIGIN in *. lia.
  - apply flat_map_data_bytes_length.
  - intros Htext. subst written.
    eapply Forall_impl; [|apply Forall_firstn_of, Htext].
    cbv beta. intros c Hcb. now apply data_bytes_framed.
Qed.

(** ** C9: the index into the row table *)

Lemma str_total (text : list Z) (row col : Z) (w : world) :
  lcdrows w <= 4 -> exists i w', lcd44780str text row col w = Ok i w'.
Proof.
  intros H4.
  destruct (Z.lt_ge_cases (to_uint8 row) ORIGIN) as [H1|H1].
  { rewrite str_row_low by assumption. unfold refuse. eauto. }
  destruct (Z.lt_ge_cases (ORIGIN + lcdrows w - 1) (to_uint8 row)) as [H2|H2].
  { rewrite str_row_high by lia. unfold refuse. eauto. }
  assert (Hrow : row_on_display w row) by (unfold row_on_display; lia).
  destruct (Z.lt_ge_cases (to_uint8 col) ORIGIN) as [H3|H3].
  { rewrite str_col_low by assumption. unfold refuse. eauto. }
  destruct (Z.lt_ge_cases (ORIGIN + lcdcols w - 1) (to_uint8 col)) as [H5|H5].
  { rewrite str_col_high by (try assumption; lia). unfold refuse. eauto. }
  rewrite str_run; [unfold final; eauto|assumption| |unfold ORIGIN in *; lia].
  unfold col_on_display. lia.
Qed.

Lemma chr_total (text : list Z) (row col : Z) (w : world) :
  lcdrows w <= 4 -> exists i w', lcd44780chr text row col w = Ok i w'.
Proof.
  intros H4.
  destruct (Z.lt_ge_cases (to_uint8 row) ORIGIN) as [H1|H1].
  { rewrite chr_row_low by assumption. unfold refuse. eauto. }
  destruct (Z.lt_ge_cases (ORIGIN + lcdrows w - 1) (to_uint8 row)) as [H2|H2].
  { rewrite chr_row_high by lia. unfold refuse. eauto. }
  assert (Hrow : row_on_display w row) by (unfold row_on_display; lia).
  destruct (Z.lt_ge_cases (to_uint8 col) ORIGIN) as [H3|H3].
  { rewrite chr_col_low by assumption. unfold refuse. eauto. }
  destruct (Z.lt_ge_cases (ORIGIN + lcdcols w - 1) (to_uint8 col)) as [H5|H5].
  { rewrite chr_col_high by (try assumption; lia). unfold refuse. eauto. }
  rewrite chr_run; [unfold final; eauto|assumption| |unfold ORIGIN in *; lia].
  unfold col_on_display. lia.
Qed.

Lemma str_total_no_cols (text : list Z) (row col : Z) (w : world) :
  lcdcols w = 0 -> exists i w', lcd44780str text row col w = Ok i w'.
Proof.
  intros H0. pose proof (to_uint8_byte col) as Hb. unfold is_byte in Hb.
  destruct (Z.lt_ge_cases (to_uint8 row) ORIGIN) as [H1|H1].
  { rewrite str_row_low by assumption. unfold refuse. eauto. }
  destruct (Z.lt_ge_cases (ORIGIN + lcdrows w - 1) (to_uint8 row)) as [H2|H2].
  { rewrite str_row_high by lia. unfold refuse. eauto. }
  assert (Hrow : row_on_display w row) by (unfold row_on_display; lia).
  destruct (Z.lt_ge_cases (to_uint8 col) ORIGIN) as [H3|H3].
  { rewrite str_col_low by assumption. unfold refuse. eauto. }
  rewrite str_col_high by (try assumption; unfold ORIGIN in *; lia).
  unfold refuse. eauto.
Qed.

Lemma chr_total_no_cols (text : list Z) (row col : Z) (w : world) :
  lcdcols w = 0 -> exists i w', lcd44780chr text row col w = Ok i w'.
Proof.
  intros H0. pose proof (to_uint8_byte col) as Hb. unfold is_byte in Hb.
  destruct (Z.lt_ge_cases (to_uint8 row) ORIGIN) as [H1|H1].
  { rewrite chr_row_low by assumption. unfold refuse. eauto. }
  destruct (Z.lt_ge_cases (ORIGIN + lcdrows w - 1) (to_uint8 row)) as [H2|H2].
  { rewrite chr_row_high by lia. unfold refuse. eauto. }
  assert (Hrow : row_on_display w row) by (unfold row_on_display; lia).
  destruct (Z.lt_ge_cases (to_uint8 col) ORIGIN) as [H3|H3].
  { rewrite chr_col_low by assumption. unfold refuse. eauto. }
  rewrite chr_col_high by (try assumption; unfold ORIGIN in *; lia).
  unfold refuse. eauto.
Qed.

(** C9, as the driver has it.  [lcd44780init] takes [rows] as an [int] and
    keeps it in the [uint8_t] [lcdrows], that is modulo 256, and the checks
    of [lcd44780str] and [lcd44780chr] compare the row with [lcdrows]
    only, not with the four entries of [rowstart].  So the read outside
    the table is out of reach when rows mod 256 <= 4: every call that
    gets through the checks then reads [rowstart] at [row - ORIGIN], an
    index in 0..3, and no call stops at the table.  When rows mod 256 > 4
    and some column is on the display (cols mod 256 > 0), row 5, column 1
    gets through the checks and reads [rowstart[4]]; with no column on
    the display every call is refused.  [lcd44780setpos] itself reads the
    table at whatever row index it is given. *)
Theorem C9_row_table_index :
  (forall rows cols w, rows mod 256 <= 4 ->
     exists i w1,
       lcd44780init rows cols w = Ok i w1 /\
       forall text row col,
         (row_on_display w1 row -> col_on_display w1 col ->
            0 <= to_uint8 row - ORIGIN <= 3 /\
            lcd44780str text row col w1 =
              bind (lcd44780setpos (to_uint8 row - ORIGIN) (to_uint8 col - ORIGIN))
                   (write_chars (strncpy text
                      (if strlen text >? lcdcols w1 - to_uint8 col + ORIGIN
                       then lcdcols w1 - to_uint8 col + ORIGIN
                       else strlen text))) w1 /\
            lcd44780chr text row col w1 =
              bind (lcd44780setpos (to_uint8 row - ORIGIN) (to_uint8 col - ORIGIN))
                   (fun _ => bind (lcd44780writedata (nth 0 (strncpy text 1) 0)) ret)
                   w1) /\
         both (fun f => exists j w2, f text row col w1 = Ok j w2)) /\
  (forall rows cols w text, 4 < rows mod 256 -> 0 < cols mod 256 ->
     exists i w1,
       lcd44780init rows cols w = Ok i w1 /\
       row_on_display w1 5 /\ col_on_display w1 1 /\
       both (fun f => f text 5 1 w1 = OutOfBounds 4 w1)) /\
  (forall rows cols w, cols mod 256 = 0 ->
     exists i w1,
       lcd44780init rows cols w = Ok i w1 /\
       forall text row col,
         both (fun f => exists j w2, f text row col w1 = Ok j w2)) /\
  (forall row col w, ~ 0 <= row <= 3 ->
     lcd44780setpos row col w = OutOfBounds row w).
Proof.
  split; [|split; [|split]].
  - intros rows cols w Hrows. rewrite init_run. unfold final.
    do 2 eexists. split; [reflexivity|].
    set (w1 := mkWorld _ _ _ _).
    assert (Hw1 : lcdrows w1 = rows mod 256) by reflexivity.
    intros text row col. split.
    + intros Hr Hc. split; [unfold row_on_display, ORIGIN in *; lia|].
      split; [now apply str_on_display | now apply chr_on_display].
    + split; [apply str_total | apply chr_total]; lia.
  - intros rows cols w text Hrows Hcols. rewrite init_run. unfold final.
    do 2 eexists. split; [reflexivity|].
    set (w1 := mkWorld _ _ _ _).
    assert (Hw1 : lcdrows w1 = rows mod 256) by reflexivity.
    assert (Hw2 : lcdcols w1 = cols mod 256) by reflexivity.
    assert (Hr : row_on_display w1 5).
    { unfold row_on_display. rewrite Hw1.
      change (to_uint8 5) with 5. unfold ORIGIN. lia. }
    assert (Hc : col_on_display w1 1).
    { unfold col_on_display. rewrite Hw2.
      change (to_uint8 1) with 1. unfold ORIGIN. lia. }
    split; [exact Hr|]. split; [exact Hc|].
    split.
    + apply (str_out_of_bounds text 5 1 w1 Hr Hc). change (to_uint8 5) with 5. lia.
    + apply (chr_out_of_bounds text 5 1 w1 Hr Hc). change (to_uint8 5) with 5. lia.
  - intros rows cols w Hcols. rewrite init_run. unfold final.
    do 2 eexists. split; [reflexivity|].
    set (w1 := mkWorld _ _ _ _).
    assert (Hw2 : lcdcols w1 = 0) by exact Hcols.
    intros text row col.
    split; [now apply str_total_no_cols | now apply chr_total_no_cols].
  - intros row col w. apply setpos_out_of_bounds.
Qed.

(** ** C7: the entry mode [lcd44780init] selects *)

(** C7.  What [lcd44780init] sends where an entry-mode-set with the
    increment and left-to-right options is called for, and where its own
    comment says "Set the entrymode (left to right)": one entry-mode-set
    command, between the display-off and the clear commands, whose byte
    is ENTRYMODESET | ENTRYRIGHT = 0x04.  ENTRYRIGHT is the zero-valued
    option, so neither the ENTRYINC bit (0x01) nor the ENTRYLEFT bit
    (0x02, the direction bit of the controller) is in the byte. *)
Theorem C7_entry_mode_command (rows cols : Z) (w : world) :
  wf_world w ->
  init_commands rows cols w = [0x28; 0x08; 0x04; 0x01; 0x0C] /\
  filter is_entry_mode_set (init_commands rows cols w) =
    [Z.lor ENTRYMODESET ENTRYRIGHT] /\
  Z.land (Z.lor ENTRYMODESET ENTRYRIGHT) ENTRYINC = 0 /\
  Z.land (Z.lor ENTRYMODESET ENTRYRIGHT) ENTRYLEFT = 0.
Proof.
  intros (Hbl & _).
  assert (E : init_commands rows cols w = [0x28; 0x08; 0x04; 0x01; 0x0C]).
  { unfold init_commands, sent_by. rewrite init_run. unfold final.
    cbn [world_of trace].
    rewrite bus_writes_app, skipn_app, skipn_all, Nat.sub_diag.
    cbn [skipn app].
    destruct Hbl as [-> | ->]; vm_compute; reflexivity. }
  rewrite E. repeat split; reflexivity.
Qed.


(** ** The globals stay well formed *)

Lemma wf_initial : wf_world initial_world.
Proof. unfold wf_world, is_byte. cbn. repeat split; lia. Qed.

Lemma init_wf (rows cols : Z) (w w' : world) (i : Z) :
  wf_world w -> lcd44780init rows cols w = Ok i w' -> wf_world w'.
Proof.
  intros (Hbl & _) H. rewrite init_run in H. unfold final in H.
  injection H as _ <-. unfold wf_world. cbn [bl44780 lcdrows lcdcols].
  repeat split; try assumption; apply to_uint8_byte.
Qed.

Lemma backlight_wf (setting : Z) (w w' : world) (i : Z) :
  wf_world w -> lcd44780backlight setting w = Ok i w' -> wf_world w'.
Proof.
  intros (_ & Hr & Hc) H. rewrite backlight_run in H. cbv zeta in H.
  injection H as _ <-. unfold wf_world. cbn [bl44780 lcdrows lcdcols].
  repeat split; try apply Hr; try apply Hc.
  destruct (to_uint8 setting =? 0); [now left | now right].
Qed.

Lemma transfers_wf (ts : list transfer) (w w' : world) (i j : Z) :
  wf_world w -> run_transfers ts i w = Ok j w' -> wf_world w'.
Proof.
  intros Hw H. destruct (run_transfers_run ts i w) as [j' Hj].
  rewrite Hj in H. injection H as _ <-. now apply wf_extend.
Qed.

(** * Further properties of the driver *)

(** ** Vocabulary *)

(** The nibbles a sequence of bus bytes carries in 8-bit mode, two bytes
    each: the data lines of the latched (enable low) byte. *)
Fixpoint decode_cmd8 (bs : list Z) : list Z :=
  match bs with
  | _ :: lo :: rest => Z.shiftr lo 4 :: decode_cmd8 rest
  | _ => []
  end.

(** The description of an error number, by cases. *)
Definition error_text (errnum : Z) : string :=
  if errnum =? -1000 then "Row number too low (less than ORIGIN) specified"
  else if errnum =? -1001 then "Row number too high (greater than ORIGIN+lcdrows) specified"
  else if errnum =? -1002 then "Column number out of range"
  else if errnum =? -1003 then "Column number too low (less than ORIGIN) specified"
  else if errnum =? -1004 then "Column number too high (greater than ORIGIN+lcdcols) specified"
  else "Unknown LCD HD44780U error number".

(** An argument of [lcd44780setdisplay] as the function reads it: off when
    it is 0 as a [uint8_t], on otherwise. *)
Definition switched_on (v : Z) : bool := negb (to_uint8 v =? 0).

(** The display-control command for the three switches. *)
Definition display_control (mode blink cursor : Z) : Z :=
  DISPLAYCONTROL
  + (if switched_on mode then DISPLAYON else DISPLAYOFF)
  + (if switched_on blink then BLINKON else BLINKOFF)
  + (if switched_on cursor then CURSORON else CURSOROFF).

(** The bus bytes come in enable strobes: a byte with the enable bit, then
    the same byte without it. *)
Fixpoint strobed (bs : list Z) : Prop :=
  match bs with
  | [] => True
  | hi :: lo :: rest =>
      Z.testbit hi 2 = true /\ lo = Z.land hi (Z.lnot ENABLE) /\ strobed rest
  | _ => False
  end.

(** A call of the public interface. *)
Inductive call : Type :=
| Operation (o : operation)
| Backlight (setting : Z).

Definition run_call (c : call) : M Z :=
  match c with
  | Operation o => run_operation o
  | Backlight setting => lcd44780backlight setting
  end.

Fixpoint run_calls (cs : list call) (i : Z) : M Z :=
  match cs with
  | [] => ret i
  | c :: cs' => i' <- run_call c ;; run_calls cs' i'
  end.

(** ** What a run sent *)

Lemma sent_by_events (m : M Z) (w : world) (evs : list event) :
  world_of (m w) = extend w evs -> sent_by m w = bus_writes evs.
Proof.
  intros H. unfold sent_by. rewrite H. cbn [extend trace].
  rewrite bus_writes_app, skipn_app, skipn_all, Nat.sub_diag. reflexivity.
Qed.

Lemma sent_by_final (m : M Z) (w : world) (bs : list Z) :
  m w = final (extend w (map I2cWrite bs)) -> sent_by m w = bs.
Proof.
  intros H. rewrite (sent_by_events m w (map I2cWrite bs)).
  - apply bus_writes_map.
  - rewrite H. reflexivity.
Qed.

(** ** The 8-bit command path *)

Lemma cmd8_bytes_check (bl d : Z) :
  bl = 0 \/ bl = BACKLIGHT -> is_byte d ->
  match cmd8_bytes bl d with
  | [b1; b2] =>
      nibble_transferb (Z.land d 0x0F) b1 b2 &&
      (Z.land b1 (Z.lor REGISTERSET READWRITE) =? 0) &&
      eqb_bytes (cmd8_bytes bl (Z.land d 0x0F)) [b1; b2]
  | _ => false
  end = true.
Proof. intros Hbl Hd. by_bytes Hbl Hd. Qed.

(** X1.  [lcd44780writecmd8] makes two bus writes, one enable strobe, that carry
    the low nibble of its argument on the data lines with the
    register-select and read/write bits clear; the high nibble of the
    argument is not sent. *)
Theorem writecmd8_sends_the_low_nibble (data : Z) (w : world) :
  is_byte data -> wf_world w ->
  exists b1 b2,
    lcd44780writecmd8 data w = final (extend w [I2cWrite b1; I2cWrite b2]) /\
    nibble_transfer (Z.land data 0x0F) b1 b2 /\
    Z.land b1 (Z.lor REGISTERSET READWRITE) = 0 /\
    lcd44780writecmd8 (Z.land data 0x0F) w = lcd44780writecmd8 data w.
Proof.
  intros Hd (Hbl & _).
  pose proof (cmd8_bytes_check _ _ Hbl Hd) as H.
  rewrite !writecmd8_final.
  destruct (cmd8_bytes (bl44780 w) data) as [|b1 [|b2 [|x l]]] eqn:E;
    try discriminate.
  apply andb_true_iff in H. destruct H as [H H3].
  apply andb_true_iff in H. destruct H as [H1 H2].
  exists b1, b2. split; [reflexivity|].
  split; [now apply nibble_transferb_ok|].
  split; [now apply Z.eqb_eq|].
  now rewrite (eqb_bytes_ok _ _ H3).
Qed.

(** ** Round trip of a transfer *)

Lemma strobe_line (b n : Z) :
  0 <= n < 8 -> n <> 2 ->
  Forall (fun x => Z.testbit x n = Z.testbit b n) (strobe b).
Proof.
  intros Hn H2. unfold strobe.
  assert (He : Z.testbit ENABLE n = false).
  { unfold ENABLE. change 4 with (2 ^ 2). apply Z.pow2_bits_false. lia. }
  assert (Hl : Z.testbit (Z.lnot ENABLE) n = true).
  { rewrite Z.lnot_spec by lia. now rewrite He. }
  repeat constructor.
  - rewrite testbit_to_char, Z.lor_spec by lia. rewrite He. apply orb_false_r.
  - rewrite testbit_to_char, Z.land_spec, testbit_to_char, Z.lor_spec by lia.
    rewrite He, Hl. now rewrite orb_false_r, andb_true_r.
Qed.

(** A command and a data transfer differ in their first byte already. *)
Lemma cmd4_bytes_not_data_bytes (bl d d' : Z) :
  bl = 0 \/ bl = BACKLIGHT -> cmd4_bytes bl d' <> data_bytes bl d.
Proof.
  intros Hbl E.
  assert (Hb : Z.testbit bl 0 = false) by (destruct Hbl as [-> | ->]; reflexivity).
  pose proof (strobe_line (Z.lor (to_char (Z.land d' 0xF0)) bl) 0) as Hc.
  pose proof (strobe_line
    (Z.lor (Z.lor (to_char (Z.land d 0xF0)) bl) REGISTERSET) 0) as Hdt.
  unfold cmd4_bytes, data_bytes, strobe in *. cbn [app] in E.
  injection E as E1 _ _ _.
  specialize (Hc ltac:(lia) ltac:(lia)). specialize (Hdt ltac:(lia) ltac:(lia)).
  inversion Hc as [|x l Hx _]. inversion Hdt as [|y l' Hy _].
  rewrite E1 in Hx. rewrite Hx in Hy.
  rewrite !Z.lor_spec, !testbit_to_char, !Z.land_spec, Hb in Hy by lia.
  change (Z.testbit 0xF0 0) with false in Hy.
  change (Z.testbit REGISTERSET 0) with true in Hy.
  rewrite !andb_false_r in Hy. cbn in Hy. discriminate.
Qed.

(** X2.  Reading the data lines of the latched bytes recovers the byte that
    [lcd44780writecmd4] or [lcd44780writedata] was given, and no command
    transfer puts on the bus the bytes of a data transfer. *)
Theorem transfer_round_trip (data : Z) (w : world) :
  is_byte data -> wf_world w ->
  decode_cmd4 (sent_by (lcd44780writecmd4 data) w) = [data] /\
  decode_cmd4 (sent_by (lcd44780writedata data) w) = [data] /\
  forall data',
    sent_by (lcd44780writecmd4 data') w <> sent_by (lcd44780writedata data) w.
Proof.
  intros Hd (Hbl & _).
  rewrite (sent_by_final _ _ _ (writecmd4_final data w)).
  rewrite (sent_by_final _ _ _ (writedata_final data w)).
  split; [now apply eqb_bytes_ok, decode_cmd4_bytes|].
  split; [now apply eqb_bytes_ok, decode_data_bytes|].
  intros data'. rewrite (sent_by_final _ _ _ (writecmd4_final data' w)).
  now apply cmd4_bytes_not_data_bytes.
Qed.

(** ** Error descriptions *)

(** X3.  [lcd44780error_fprintf] prints one line and does nothing else: for the
    five numbers -1000 .. -1004 the line is their entry of the table (the
    index computed from the number stays inside the table), for any other
    number it is the unknown-error line. *)
Theorem error_fprintf_prints_the_description (errnum : Z) (w : world) :
  lcd44780error_fprintf errnum w =
  Ok tt (extend w [Stderr (error_text errnum) errnum]).
Proof.
  unfold lcd44780error_fprintf.
  destruct (Z.gtb_spec errnum ROWTOOLOW) as [Hhi|Hhi];
    [|destruct (Z.ltb_spec errnum COLTOOHIGH) as [Hlo|Hlo]];
    unfold ROWTOOLOW, COLTOOHIGH in *; cbn [orb].
  - unfold error_text.
    repeat match goal with
    | |- context [errnum =? ?k] => destruct (Z.eqb_spec errnum k); [lia|]
    end. reflexivity.
  - unfold error_text.
    repeat match goal with
    | |- context [errnum =? ?k] => destruct (Z.eqb_spec errnum k); [lia|]
    end. reflexivity.
  - assert (H : errnum = -1000 \/ errnum = -1001 \/ errnum = -1002 \/
                errnum = -1003 \/ errnum = -1004) by lia.
    destruct H as [-> | [-> | [-> | [-> | ->]]]]; reflexivity.
Qed.

(** ** Clear and home *)

(** X4.  [lcd44780clear] and [lcd44780home] each put one command on the bus,
    0x01 and 0x02 once the data lines are read back, as four bus writes,
    and sleep only when the command is out: 100 ms after a clear, 50 ms
    after a home.  They return the status of the fourth write. *)
Theorem clear_and_home_sleep_after_the_command (w : world) :
  wf_world w ->
  (exists bs,
     lcd44780clear w =
       Ok (i2c_status (bus_writes (trace w) ++ bs))
          (extend w (map I2cWrite bs ++ [Nanosleep 0 100000000])) /\
     length bs = 4%nat /\ decode_cmd4 bs = [CLEARDISPLAY]) /\
  (exists bs,
     lcd44780home w =
       Ok (i2c_status (bus_writes (trace w) ++ bs))
          (extend w (map I2cWrite bs ++ [Nanosleep 0 50000000])) /\
     length bs = 4%nat /\ decode_cmd4 bs = [CURSORHOME]).
Proof.
  intros (Hbl & _). split.
  - exists (cmd4_bytes (bl44780 w) CLEARDISPLAY).
    split; [apply clear_run|]. split; [reflexivity|].
    destruct Hbl as [-> | ->]; reflexivity.
  - exists (cmd4_bytes (bl44780 w) CURSORHOME).
    split; [apply home_run|]. split; [reflexivity|].
    destruct Hbl as [-> | ->]; reflexivity.
Qed.

(** ** Display control *)

Lemma display_control_byte (mode blink cursor : Z) :
  is_byte (display_control mode blink cursor).
Proof.
  unfold display_control, is_byte.
  unfold DISPLAYCONTROL, DISPLAYON, DISPLAYOFF, BLINKON, BLINKOFF,
         CURSORON, CURSOROFF.
  destruct (switched_on mode), (switched_on blink), (switched_on cursor); lia.
Qed.

(** X5.  [lcd44780setdisplay] is one 4-bit command, DISPLAYCONTROL plus 4 when
    the display is on, 1 when blink is on and 2 when the cursor is on; an
    argument counts as on when it is not 0 as a [uint8_t], so only that
    matters, and the command is what the data lines of the four bus writes
    read back. *)
Theorem setdisplay_sends_the_three_switches
    (mode blink cursor : Z) (w : world) :
  wf_world w ->
  lcd44780setdisplay mode blink cursor w =
    lcd44780writecmd4 (display_control mode blink cursor) w /\
  decode_cmd4 (sent_by (lcd44780setdisplay mode blink cursor) w) =
    [display_control mode blink cursor] /\
  forall mode' blink' cursor',
    switched_on mode' = switched_on mode ->
    switched_on blink' = switched_on blink ->
    switched_on cursor' = switched_on cursor ->
    lcd44780setdisplay mode' blink' cursor' w =
    lcd44780setdisplay mode blink cursor w.
Proof.
  intros (Hbl & _).
  assert (E : forall m b c,
    lcd44780setdisplay m b c w = lcd44780writecmd4 (display_control m b c) w).
  { intros m b c. unfold lcd44780setdisplay. cbv zeta. rewrite bind_ret.
    f_equal. unfold display_control, switched_on.
    destruct (to_uint8 m =? 0), (to_uint8 b =? 0), (to_uint8 c =? 0);
      reflexivity. }
  split; [apply E|]. split.
  - rewrite (sent_by_final _ _ (cmd4_bytes (bl44780 w)
                                  (display_control mode blink cursor))).
    + apply eqb_bytes_ok, decode_cmd4_bytes;
        [exact Hbl | apply display_control_byte].
    + rewrite E. apply writecmd4_final.
  - intros m b c Hm Hb Hc. rewrite !E. unfold display_control.
    now rewrite Hm, Hb, Hc.
Qed.

(** ** The backlight call *)

(** X6.  [lcd44780backlight] writes one byte straight to the bus, outside any
    enable strobe: 0x00 when its argument is 0 as a [uint8_t] (so for 256
    too), 0x08 otherwise.  That byte becomes [bl44780] whatever it was
    before, the geometry is left alone, and calling again with the same
    argument writes the same byte and changes nothing more. *)
Theorem backlight_writes_one_raw_byte (setting : Z) (w : world) :
  let b := if setting mod 256 =? 0 then 0x00 else BACKLIGHT in
  let w1 := mkWorld b (lcdrows w) (lcdcols w) (trace w ++ [I2cWrite b]) in
  lcd44780backlight setting w = final w1 /\
  Z.land b ENABLE = 0 /\
  lcd44780backlight setting w1 = final (extend w1 [I2cWrite b]).
Proof.
  cbv zeta. rewrite !backlight_run. cbv zeta. unfold final, to_uint8.
  cbn [bl44780 lcdrows lcdcols trace extend].
  rewrite !bus_writes_app. cbn [bus_writes].
  split; [reflexivity|]. split; [|reflexivity].
  destruct (setting mod 256 =? 0); reflexivity.
Qed.

(** ** One character, no character *)

Lemma first_char (text : list Z) : nth 0 (strncpy text 1) 0 = hd 0 text.
Proof. destruct text as [|c rest]; reflexivity. Qed.

Lemma one_char_buffer (c cols col : Z) :
  ORIGIN <= col <= ORIGIN + cols - 1 ->
  strncpy [c] (if strlen [c] >? cols - col + ORIGIN
               then cols - col + ORIGIN else strlen [c]) = [c].
Proof.
  intros Hc. change (strlen [c]) with 1.
  destruct (Z.gtb_spec 1 (cols - col + ORIGIN)); [unfold ORIGIN in *; lia|].
  reflexivity.
Qed.

(** X7.  For a text whose first character [c] is not NUL, [lcd44780chr]
    does what [lcd44780str] does with the one-character string [c], at
    every position and in every state: the same refusal, the same bus
    writes, the same status; what follows the first character is not
    looked at.  The empty text is where the two part: at a position they
    both accept, [lcd44780str] only moves the cursor while [lcd44780chr]
    moves it and then writes the character NUL (code 0). *)
Theorem chr_is_str_of_the_first_char
    (c : Z) (rest : list Z) (row col : Z) (w : world) :
  (c <> 0 ->
   lcd44780chr (c :: rest) row col w = lcd44780str [c] row col w) /\
  (row_on_display w row -> col_on_display w col -> to_uint8 row <= 4 ->
   sent_by (lcd44780chr [] row col) w =
   sent_by (lcd44780str [] row col) w ++ data_bytes (bl44780 w) 0).
Proof.
  split.
  - intros _.
    destruct (Z.lt_ge_cases (to_uint8 row) ORIGIN) as [H1|H1].
    { now rewrite chr_row_low, str_row_low. }
    destruct (Z.lt_ge_cases (ORIGIN + lcdrows w - 1) (to_uint8 row)) as [H2|H2].
    { now rewrite chr_row_high, str_row_high by lia. }
    assert (Hrow : row_on_display w row) by (unfold row_on_display; lia).
    destruct (Z.lt_ge_cases (to_uint8 col) ORIGIN) as [H3|H3].
    { now rewrite chr_col_low, str_col_low. }
    destruct (Z.lt_ge_cases (ORIGIN + lcdcols w - 1) (to_uint8 col)) as [H4|H4].
    { now rewrite chr_col_high, str_col_high by (assumption || lia). }
    assert (Hcol : col_on_display w col) by (unfold col_on_display; lia).
    rewrite chr_on_display, str_on_display by assumption.
    rewrite one_char_buffer by exact Hcol. rewrite first_char. cbn [hd].
    unfold bind at 1 3.
    destruct (lcd44780setpos (to_uint8 row - ORIGIN) (to_uint8 col - ORIGIN) w);
      reflexivity.
  - intros Hr Hc H4.
    rewrite (sent_by_final _ _ _ (chr_run [] row col w Hr Hc H4)).
    rewrite (sent_by_final _ _ _ (str_run [] row col w Hr Hc H4)).
    rewrite first_char. cbn [hd].
    replace (firstn _ (@nil Z)) with (@nil Z) by (now rewrite firstn_nil).
    cbn [flat_map]. now rewrite app_nil_r.
Qed.

(** X8.  With an empty text, [lcd44780str] at a position of the display only
    moves the cursor there: it is the call of [lcd44780setpos], status
    included. *)
Theorem str_of_nothing_moves_the_cursor (row col : Z) (w : world) :
  row_on_display w row -> col_on_display w col ->
  lcd44780str [] row col w =
  lcd44780setpos (to_uint8 row - ORIGIN) (to_uint8 col - ORIGIN) w.
Proof.
  intros Hr Hc. rewrite str_on_display by assumption.
  change (strlen []) with 0.
  destruct (Z.gtb_spec 0 (lcdcols w - to_uint8 col + ORIGIN));
    [unfold col_on_display, ORIGIN in *; lia|].
  change (strncpy [] 0) with (@nil Z). cbn [write_chars].
  apply bind_ret.
Qed.

(** ** Reading the text back from the bus *)

Lemma decode_cmd4_frame (f rest : list Z) :
  length f = 4%nat -> decode_cmd4 (f ++ rest) = decode_cmd4 f ++ decode_cmd4 rest.
Proof.
  destruct f as [|a [|b [|c [|d [|e f]]]]]; try discriminate. reflexivity.
Qed.

Lemma decode_data (bl : Z) (cs : list Z) :
  bl = 0 \/ bl = BACKLIGHT -> Forall is_byte cs ->
  decode_cmd4 (flat_map (data_bytes bl) cs) = cs.
Proof.
  intros Hbl H. induction H as [|c cs Hc Hcs IH]; [reflexivity|].
  cbn [flat_map]. rewrite decode_cmd4_frame by apply data_bytes_length.
  rewrite IH, (eqb_bytes_ok _ _ (decode_data_bytes _ _ Hbl Hc)). reflexivity.
Qed.

Lemma position_command_byte (row col : Z) : is_byte (position_command row col).
Proof. apply to_char_byte. Qed.

(** X9.  What [lcd44780str] puts on the bus at a position of the display reads
    back, frame by frame, as the cursor command of the position followed
    by the characters of the text that fit between the column and the end
    of the row: the whole text when it fits, and never a character beyond
    the last column. *)
Theorem str_round_trip (text : list Z) (row col : Z) (w : world) :
  wf_world w ->
  ORIGIN <= row <= ORIGIN + lcdrows w - 1 -> row <= 4 ->
  ORIGIN <= col <= ORIGIN + lcdcols w - 1 ->
  Forall is_byte text ->
  let written :=
    firstn (Z.to_nat (Z.min (strlen text) (lcdcols w - col + ORIGIN))) text in
  decode_cmd4 (sent_by (lcd44780str text row col) w) =
    position_command row col :: written /\
  col + strlen written - 1 <= lcdcols w /\
  (col + strlen text - 1 <= lcdcols w -> written = text).
Proof.
  intros (Hbl & Hrows & Hcols) Hr H4 Hc Htext written.
  unfold is_byte in Hrows, Hcols.
  assert (Er : to_uint8 row = row)
    by (apply to_uint8_id; unfold is_byte, ORIGIN in *; lia).
  assert (Ec : to_uint8 col = col)
    by (apply to_uint8_id; unfold is_byte, ORIGIN in *; lia).
  split; [|split].
  - erewrite sent_by_final.
    2:{ apply str_run; unfold row_on_display, col_on_display;
          rewrite ?Er, ?Ec; assumption. }
    rewrite Er, Ec, decode_cmd4_frame by apply cmd4_bytes_length.
    rewrite (eqb_bytes_ok _ _
               (decode_cmd4_bytes _ _ Hbl (position_command_byte row col))).
    rewrite decode_data; [reflexivity|exact Hbl|].
    now apply Forall_firstn_of.
  - subst written. unfold strlen. rewrite length_firstn.
    unfold ORIGIN in *. lia.
  - intros Hfit. subst written. apply firstn_all2.
    unfold strlen, ORIGIN in *. lia.
Qed.

(** X10.  At a position of the display [lcd44780chr] makes eight bus writes,
    which read back as the cursor command of the position and the first
    character of the text (NUL when the text is empty); the rest of the
    text is not sent. *)
Theorem chr_round_trip (text : list Z) (row col : Z) (w : world) :
  wf_world w ->
  ORIGIN <= row <= ORIGIN + lcdrows w - 1 -> row <= 4 ->
  ORIGIN <= col <= ORIGIN + lcdcols w - 1 ->
  is_byte (hd 0 text) ->
  length (sent_by (lcd44780chr text row col) w) = 8%nat /\
  decode_cmd4 (sent_by (lcd44780chr text row col) w) =
    [position_command row col; hd 0 text].
Proof.
  intros (Hbl & Hrows & Hcols) Hr H4 Hc Htext.
  unfold is_byte in Hrows, Hcols.
  assert (Er : to_uint8 row = row)
    by (apply to_uint8_id; unfold is_byte, ORIGIN in *; lia).
  assert (Ec : to_uint8 col = col)
    by (apply to_uint8_id; unfold is_byte, ORIGIN in *; lia).
  erewrite sent_by_final.
  2:{ apply chr_run; unfold row_on_display, col_on_display;
        rewrite ?Er, ?Ec; assumption. }
  rewrite Er, Ec, first_char. split; [reflexivity|].
  rewrite decode_cmd4_frame by apply cmd4_bytes_length.
  rewrite (eqb_bytes_ok _ _
             (decode_cmd4_bytes _ _ Hbl (position_command_byte row col))).
  rewrite (eqb_bytes_ok _ _ (decode_data_bytes _ _ Hbl Htext)). reflexivity.
Qed.

(** ** The bus traffic is made of transfers *)

Lemma flat_map_data (bl : Z) (cs : list Z) :
  flat_map (transfer_bytes bl) (map Data cs) = flat_map (data_bytes bl) cs.
Proof. induction cs as [|c cs IH]; [reflexivity|]. cbn. now rewrite IH. Qed.

Lemma init_frames (bl : Z) :
  bus_writes (init_events bl) =
  flat_map (transfer_bytes bl)
    [ Cmd8 0x03; Cmd8 0x03; Cmd8 0x03; Cmd8 0x02;
      Cmd4 (Z.lor (Z.lor FUNCTIONSET FOURBIT) TWOLINE);
      Cmd4 (Z.lor (Z.lor (Z.lor DISPLAYCONTROL DISPLAYOFF) CURSOROFF) BLINKOFF);
      Cmd4 (Z.lor ENTRYMODESET ENTRYRIGHT);
      Cmd4 CLEARDISPLAY;
      Cmd4 (Z.lor (Z.lor (Z.lor DISPLAYCONTROL DISPLAYON) BLINKOFF) CURSOROFF) ].
Proof.
  unfold init_events. rewrite !bus_writes_app, !bus_writes_map.
  cbn [bus_writes sleep100 flat_map transfer_bytes].
  rewrite ?app_nil_r, <- ?app_assoc. cbn [app]. rewrite ?app_nil_r. reflexivity.
Qed.

(** What an operation leaves: the backlight byte as it was, a geometry
    that still fits two [uint8_t], and on the bus the bytes of a sequence
    of transfers, nothing else. *)
Lemma operation_frames (o : operation) (w : world) :
  let w' := world_of (run_operation o w) in
  bl44780 w' = bl44780 w /\
  (is_byte (lcdrows w) -> is_byte (lcdrows w')) /\
  (is_byte (lcdcols w) -> is_byte (lcdcols w')) /\
  exists ts,
    bus_writes (trace w') =
    bus_writes (trace w) ++ flat_map (transfer_bytes (bl44780 w)) ts.
Proof.
  cbv zeta.
  destruct o as [t|rows cols| | |text row col|text row col|mode blink cursor];
    cbn [run_operation].
  - rewrite run_transfer_run. cbn [world_of].
    (split; [reflexivity|]; split; [exact (fun H => H)|];
     split; [exact (fun H => H)|]). exists [t]. cbn [flat_map]. rewrite app_nil_r.
    apply bus_writes_extend.
  - rewrite init_run. unfold final. cbn [world_of bl44780 lcdrows lcdcols trace].
    split; [reflexivity|]. split; [intros _; apply to_uint8_byte|].
    split; [intros _; apply to_uint8_byte|].
    eexists. rewrite bus_writes_app, init_frames. reflexivity.
  - rewrite clear_run. cbn [world_of]. (split; [reflexivity|]; split; [exact (fun H => H)|];
     split; [exact (fun H => H)|]).
    exists [Cmd4 CLEARDISPLAY]. cbn [extend trace flat_map transfer_bytes].
    rewrite !bus_writes_app, bus_writes_map. reflexivity.
  - rewrite home_run. cbn [world_of]. (split; [reflexivity|]; split; [exact (fun H => H)|];
     split; [exact (fun H => H)|]).
    exists [Cmd4 CURSORHOME]. cbn [extend trace flat_map transfer_bytes].
    rewrite !bus_writes_app, bus_writes_map. reflexivity.
  - destruct (str_shape text row col w) as [[c ->]|[[idx ->]|[d [cs ->]]]];
      unfold refuse, final; cbn [world_of]; (split; [reflexivity|]; split; [exact (fun H => H)|];
     split; [exact (fun H => H)|]).
    + exists []. cbn [extend trace flat_map]. rewrite bus_writes_app. reflexivity.
    + exists []. cbn [flat_map]. now rewrite app_nil_r.
    + exists (Cmd4 d :: map Data cs). cbn [flat_map transfer_bytes].
      rewrite flat_map_data. apply bus_writes_extend.
  - destruct (chr_shape text row col w) as [[c ->]|[[idx ->]|[d [cs ->]]]];
      unfold refuse, final; cbn [world_of]; (split; [reflexivity|]; split; [exact (fun H => H)|];
     split; [exact (fun H => H)|]).
    + exists []. cbn [extend trace flat_map]. rewrite bus_writes_app. reflexivity.
    + exists []. cbn [flat_map]. now rewrite app_nil_r.
    + exists (Cmd4 d :: map Data cs). cbn [flat_map transfer_bytes].
      rewrite flat_map_data. apply bus_writes_extend.
  - destruct (setdisplay_run mode blink cursor w) as [cmd ->].
    unfold final. cbn [world_of]. (split; [reflexivity|]; split; [exact (fun H => H)|];
     split; [exact (fun H => H)|]).
    exists [Cmd4 cmd]. cbn [flat_map transfer_bytes]. rewrite app_nil_r.
    apply bus_writes_extend.
Qed.

Lemma operations_frames (ops : list operation) (i : Z) (w : world) :
  let w' := world_of (run_operations ops i w) in
  bl44780 w' = bl44780 w /\
  exists ts,
    bus_writes (trace w') =
    bus_writes (trace w) ++ flat_map (transfer_bytes (bl44780 w)) ts.
Proof.
  cbv zeta. revert i w. induction ops as [|o ops IH]; intros i w.
  - cbn. split; [reflexivity|]. exists []. cbn. now rewrite app_nil_r.
  - cbn [run_operations]. unfold bind.
    destruct (operation_frames o w) as (Hbl & _ & _ & ts & Hts).
    destruct (run_operation o w) as [i' w1|idx w1]; cbn [world_of] in *.
    + destruct (IH i' w1) as (Hbl' & ts' & Hts').
      split; [congruence|]. exists (ts ++ ts').
      rewrite Hts', Hts, Hbl, flat_map_app, app_assoc. reflexivity.
    + split; [exact Hbl|]. now exists ts.
Qed.

Lemma to_char_land_to_char (v m : Z) :
  to_char (Z.land (to_char v) m) = Z.land (to_char v) m.
Proof.
  rewrite !to_char_land.
  rewrite <- (Z.land_assoc (Z.land v 255) m 255), (Z.land_comm m 255).
  rewrite (Z.land_assoc (Z.land v 255) 255 m), <- (Z.land_assoc v 255 255).
  reflexivity.
Qed.

Lemma strobed_strobe (b : Z) (rest : list Z) :
  strobed rest -> strobed (strobe b ++ rest).
Proof.
  intros H. unfold strobe. cbn [app strobed].
  split; [|split; [apply to_char_land_to_char | exact H]].
  rewrite testbit_to_char, Z.lor_spec by lia.
  change (Z.testbit ENABLE 2) with true. apply orb_true_r.
Qed.

Lemma strobed_transfers (bl : Z) (ts : list transfer) :
  strobed (flat_map (transfer_bytes bl) ts).
Proof.
  induction ts as [|t ts IH]; [exact I|].
  cbn [flat_map]. destruct t as [d|d|d]; cbn [transfer_bytes].
  - unfold cmd8_bytes. apply strobed_strobe. exact IH.
  - unfold cmd4_bytes. rewrite <- app_assoc. do 2 apply strobed_strobe. exact IH.
  - unfold data_bytes. rewrite <- app_assoc. do 2 apply strobed_strobe. exact IH.
Qed.

(** X11.  Whatever operations are run, in whatever state, every byte they write
    to the bus belongs to an enable strobe: the bytes come in pairs, the
    first with the enable bit, the second the same byte with the enable
    bit cleared.  (The byte [lcd44780backlight] writes is the one bus write
    of the driver outside such a pair.) *)
Theorem operations_write_enable_strobes
    (ops : list operation) (i : Z) (w : world) :
  exists bs,
    bus_writes (trace (world_of (run_operations ops i w))) =
      bus_writes (trace w) ++ bs /\
    strobed bs.
Proof.
  destruct (operations_frames ops i w) as (_ & ts & Hts).
  eexists. split; [exact Hts|apply strobed_transfers].
Qed.

(** ** Invariants over sequences of calls *)

Lemma transfer_bytes_write_mode (bl : Z) (t : transfer) :
  Z.testbit bl 1 = false ->
  Forall (fun x => Z.testbit x 1 = false) (transfer_bytes bl t).
Proof.
  intros Hbl.
  destruct t as [d|d|d]; cbn [transfer_bytes];
    unfold cmd8_bytes, cmd4_bytes, data_bytes;
    rewrite ?Forall_app; repeat split;
    (eapply Forall_impl; [|apply (strobe_line _ 1); lia]);
    cbv beta; intros x ->;
    rewrite ?Z.lor_spec, ?testbit_to_char, ?Z.land_spec, Hbl by lia;
    change (Z.testbit 0xF0 1) with false;
    change (Z.testbit REGISTERSET 1) with false;
    rewrite ?andb_false_r; reflexivity.
Qed.

Lemma call_invariant (c : call) (w : world) :
  wf_world w ->
  wf_world (world_of (run_call c w)) /\
  exists bs,
    bus_writes (trace (world_of (run_call c w))) = bus_writes (trace w) ++ bs /\
    Forall (fun x => Z.testbit x 1 = false) bs.
Proof.
  intros (Hbl & Hr & Hc). destruct c as [o|setting]; cbn [run_call].
  - destruct (operation_frames o w) as (Ebl & Hr' & Hc' & ts & Hts).
    split.
    + unfold wf_world. rewrite Ebl. auto.
    + eexists. split; [exact Hts|].
      apply Forall_flat_map, Forall_forall. intros t _.
      apply transfer_bytes_write_mode.
      destruct Hbl as [-> | ->]; reflexivity.
  - rewrite backlight_run. cbv zeta. cbn [world_of trace].
    split.
    + unfold wf_world. cbn [bl44780 lcdrows lcdcols].
      split; [|now split].
      destruct (to_uint8 setting =? 0); [now left | now right].
    + eexists. split; [apply bus_writes_app|].
      cbn [bus_writes]. constructor; [|constructor].
      destruct (to_uint8 setting =? 0); reflexivity.
Qed.

Lemma calls_invariant (cs : list call) (i : Z) (w : world) :
  wf_world w ->
  wf_world (world_of (run_calls cs i w)) /\
  exists bs,
    bus_writes (trace (world_of (run_calls cs i w))) = bus_writes (trace w) ++ bs /\
    Forall (fun x => Z.testbit x 1 = false) bs.
Proof.
  revert i w. induction cs as [|c cs IH]; intros i w Hw.
  - cbn. split; [exact Hw|]. exists []. split; [now rewrite app_nil_r|constructor].
  - cbn [run_calls]. unfold bind.
    destruct (call_invariant c w Hw) as (Hw1 & bs & Hbs & Hrw).
    destruct (run_call c w) as [i' w1|idx w1]; cbn [world_of] in *.
    + destruct (IH i' w1 Hw1) as (Hw2 & bs' & Hbs' & Hrw').
      split; [exact Hw2|]. exists (bs ++ bs'). split.
      * rewrite Hbs', Hbs, app_assoc. reflexivity.
      * apply Forall_app. now split.
    + split; [exact Hw1|]. now exists bs.
Qed.

(** X12.  From globals as the loader leaves them, or as any earlier calls left
    them, no sequence of calls of the public interface leads anywhere
    else: [bl44780] stays 0x00 or 0x08 and the geometry stays within two
    [uint8_t], also when a call is refused or stops at the row table. *)
Theorem calls_keep_the_globals_well_formed (cs : list call) (i : Z) (w : world) :
  wf_world w -> wf_world (world_of (run_calls cs i w)).
Proof. intros Hw. apply (calls_invariant cs i w Hw). Qed.

(** X13.  The driver only ever writes to the display: in every byte that any
    sequence of calls puts on the bus, the read/write bit (0x02) is
    clear. *)
Theorem calls_never_set_the_read_bit (cs : list call) (i : Z) (w : world) :
  wf_world w ->
  exists bs,
    bus_writes (trace (world_of (run_calls cs i w))) = bus_writes (trace w) ++ bs /\
    Forall (fun x => Z.land x READWRITE = 0) bs.
Proof.
  intros Hw. destruct (calls_invariant cs i w Hw) as (_ & bs & Hbs & Hrw).
  exists bs. split; [exact Hbs|].
  eapply Forall_impl; [|exact Hrw]. cbv beta. intros x Hx.
  apply Z.bits_inj'. intros n Hn. rewrite Z.land_spec, Z.bits_0.
  destruct (Z.eq_dec n 1) as [-> | Hne].
  - now rewrite Hx.
  - unfold READWRITE. change 2 with (2 ^ 1).
    rewrite Z.pow2_bits_false by lia. apply andb_false_r.
Qed.

(** ** The codes of a refusal *)

(** X14.  A call of [lcd44780str] or [lcd44780chr] that comes back without a bus
    write came back with one of four codes, and did nothing but print that
    code's line on stderr; COLOUTOFRANGE (-1002), although it has a
    description in the table, is never what a refusal returns. *)
Theorem refusals_use_four_codes
    (text : list Z) (row col : Z) (w : world) (code : Z) :
  both (fun f =>
    rejected (f text row col) w code ->
    (code = ROWTOOLOW \/ code = ROWTOOHIGH \/
     code = COLTOOLOW \/ code = COLTOOHIGH) /\
    code <> COLOUTOFRANGE /\
    f text row col w = refuse code w).
Proof.
  destruct both_check_position as [Hs Hc].
  split; cbv beta; intros Hrej;
    [ destruct (Hs text row col w) as (H1 & H2 & H3 & H4 & _)
    | destruct (Hc text row col w) as (H1 & H2 & H3 & H4 & _) ];
    (apply rejected_iff in Hrej; [|assumption]);
    destruct Hrej as [(A & ->)|[(A & B & ->)|[(A & B & ->)|(A & B & C & ->)]]];
    (split; [tauto|]); (split; [discriminate|]); auto.
Qed.

(** ** The geometry [lcd44780init] stores *)

(** X15.  [lcd44780init] keeps its two arguments modulo 256 and leaves the
    backlight byte alone.  So after an initialisation whose row count is a
    multiple of 256 (0 or 256, say) no position is on the display: every
    call of [lcd44780str] and [lcd44780chr] is refused with a row code,
    without a bus write. *)
Theorem init_stores_the_geometry_modulo_256 (rows cols : Z) (w : world) :
  exists i w1,
    lcd44780init rows cols w = Ok i w1 /\
    lcdrows w1 = rows mod 256 /\ lcdcols w1 = cols mod 256 /\
    bl44780 w1 = bl44780 w /\
    (rows mod 256 = 0 ->
     forall text row col,
       both (fun f => rejected (f text row col) w1 ROWTOOLOW \/
                      rejected (f text row col) w1 ROWTOOHIGH)).
Proof.
  rewrite init_run. unfold final. do 2 eexists.
  split; [reflexivity|]. cbn [lcdrows lcdcols bl44780].
  split; [reflexivity|]. split; [reflexivity|]. split; [reflexivity|].
  intros H0 text row col.
  set (w1 := mkWorld _ _ _ _).
  assert (Hw1 : lcdrows w1 = 0) by exact H0.
  destruct both_check_position as [Hs Hc].
  pose proof (to_uint8_byte row) as Hr. unfold is_byte in Hr.
  split; cbv beta;
    (destruct (Z.eq_dec (to_uint8 row) 0) as [E|E];
     [left|right]; (apply rejected_iff; [assumption|]);
     unfold ORIGIN; rewrite ?Hw1; lia).
Qed.

(** ** Positions and addresses *)

Lemma setaddr_low (a : Z) :
  0 <= a < 128 -> to_char (Z.lor DDRAMSETADDR a) = 128 + a.
Proof.
  intros Ha.
  assert (Hb : is_byte a) by (unfold is_byte; lia).
  assert (H : (if a <? 128
               then to_char (Z.lor DDRAMSETADDR a) =? 128 + a
               else true) = true).
  { revert a Hb Ha. intros a Hb _. revert a Hb.
    apply (byte_cases (fun a => if a <? 128
                                then to_char (Z.lor DDRAMSETADDR a) =? 128 + a
                                else true)).
    vm_compute. reflexivity. }
  destruct (Z.ltb_spec a 128); [now apply Z.eqb_eq | lia].
Qed.

(** Evaluate the entries read from a table at a known index. *)
Ltac table_entries :=
  repeat match goal with
  | |- context [nth (Z.to_nat ?e) ?l 0] =>
      let v := eval vm_compute in (nth (Z.to_nat e) l 0) in
      change (nth (Z.to_nat e) l 0) with v
  end.

Lemma position_command_value (row col : Z) :
  1 <= row <= 4 -> 1 <= col <= 20 ->
  position_command row col =
  128 + nth (Z.to_nat (row - 1)) [0x00; 0x40; 0x14; 0x54] 0 + (col - 1).
Proof.
  intros Hr Hc. unfold position_command, rowBaseAddress, rowstart, ORIGIN.
  assert (H : row = 1 \/ row = 2 \/ row = 3 \/ row = 4) by lia.
  destruct H as [-> | [-> | [-> | ->]]]; table_entries;
    rewrite setaddr_low by lia; lia.
Qed.

(** X16.  On a display of at most four rows and twenty columns, two positions
    have the same cursor command only when they are the same position;
    with a twenty-first column the rows run into each other: row 1,
    column 21 has the command of row 3, column 1. *)
Theorem positions_have_their_own_address (r1 c1 r2 c2 : Z) :
  1 <= r1 <= 4 -> 1 <= c1 <= 20 ->
  1 <= r2 <= 4 -> 1 <= c2 <= 20 ->
  (position_command r1 c1 = position_command r2 c2 -> r1 = r2 /\ c1 = c2) /\
  position_command 1 21 = position_command 3 1.
Proof.
  intros Hr1 Hc1 Hr2 Hc2. split; [|reflexivity].
  rewrite !position_command_value by assumption.
  assert (H1 : r1 = 1 \/ r1 = 2 \/ r1 = 3 \/ r1 = 4) by lia.
  assert (H2 : r2 = 1 \/ r2 = 2 \/ r2 = 3 \/ r2 = 4) by lia.
  destruct H1 as [-> | [-> | [-> | ->]]];
    destruct H2 as [-> | [-> | [-> | ->]]];
    table_entries; lia.
Qed.

(** ** [lcd44780setdisplay] as a command *)

Lemma setdisplay_is_writecmd4 (mode blink cursor : Z) (w : world) :
  lcd44780setdisplay mode blink cursor w =
  lcd44780writecmd4 (display_control mode blink cursor) w.
Proof.
  unfold lcd44780setdisplay. cbv zeta. rewrite bind_ret.
  f_equal. unfold display_control, switched_on.
  destruct (to_uint8 mode =? 0), (to_uint8 blink =? 0), (to_uint8 cursor =? 0);
    reflexivity.
Qed.

(** ** The pauses of an initialisation *)

(** The numbers of bus writes between the sleeps of a trace, the writes
    before the first sleep first and those after the last sleep last. *)
Fixpoint bursts (evs : list event) (n : nat) : list nat :=
  match evs with
  | [] => [n]
  | Nanosleep _ _ :: rest => n :: bursts rest 0
  | I2cWrite _ :: rest => bursts rest (S n)
  | Stderr _ _ :: rest => bursts rest n
  end.

(** The sleeps of a trace, in nanoseconds. *)
Fixpoint sleeps (evs : list event) : list Z :=
  match evs with
  | [] => []
  | Nanosleep sec nsec :: rest => (sec * 1000000000 + nsec) :: sleeps rest
  | _ :: rest => sleeps rest
  end.

(** X17.  [lcd44780init] sleeps 100 ms six times: before its first bus write,
    after each of the four 8-bit mode commands (two bus writes each, which
    carry the nibbles 3, 3, 3 and 2), and right after the clear command
    that ends the sixteen bus writes of the first four 4-bit commands; the
    four bus writes of the display-on command follow without a sleep. *)
Theorem init_pauses_between_its_steps (rows cols : Z) (w : world) :
  wf_world w ->
  exists i w1 evs,
    lcd44780init rows cols w = Ok i w1 /\
    trace w1 = trace w ++ evs /\
    bursts evs 0 = [0; 2; 2; 2; 2; 16; 4]%nat /\
    sleeps evs = repeat 100000000 6 /\
    decode_cmd8 (firstn 8 (bus_writes evs)) = [3; 3; 3; 2].
Proof.
  intros (Hbl & _). rewrite init_run. unfold final.
  do 2 eexists. exists (init_events (bl44780 w)).
  split; [reflexivity|]. split; [reflexivity|].
  destruct Hbl as [-> | ->]; repeat split; vm_compute; reflexivity.
Qed.

(** ** Cursor addresses have seven bits *)

Lemma setaddr_modulo_128 (a : Z) :
  to_char (Z.lor DDRAMSETADDR a) = 128 + a mod 128.
Proof.
  rewrite <- setaddr_truncation.
  assert (Hm : a mod 128 = to_uint8 a mod 128).
  { unfold to_uint8. symmetry. apply Z.mod_mod_divide. now exists 2. }
  rewrite Hm. apply Z.eqb_eq.
  generalize (to_uint8 a) (to_uint8_byte a).
  apply (byte_cases (fun b => to_char (Z.lor DDRAMSETADDR b) =? 128 + b mod 128)).
  vm_compute. reflexivity.
Qed.

(** X18.  For a row index of the table, [lcd44780setpos] sends the command
    128 + (rowstart[row] + col) mod 128: only seven bits of the address
    reach the display, so two column indexes 128 apart set the same
    cursor. *)
Theorem setpos_keeps_seven_bits_of_the_address (row col : Z) (w : world) :
  0 <= row <= 3 ->
  lcd44780setpos row col w =
    lcd44780writecmd4 (128 + (rowBaseAddress row + col) mod 128) w /\
  lcd44780setpos row (col + 128) w = lcd44780setpos row col w.
Proof.
  intros Hrow. rewrite !setpos_run by exact Hrow.
  rewrite !setaddr_modulo_128. split; [reflexivity|].
  f_equal. f_equal.
  replace (rowBaseAddress row + (col + 128))
    with (rowBaseAddress row + col + 1 * 128) by lia.
  apply Z_mod_plus_full.
Qed.

End Driver.

(** * Scenarios *)

(** Function set (0x28) with the backlight on: 0x2C, 0x28, 0x8C, 0x88. *)
Example writecmd4_function_set :
  sent_by (lcd44780writecmd4 bus_ok 0x28) lcd_4x20 = [0x2C; 0x28; 0x8C; 0x88].
Proof. vm_compute. reflexivity. Qed.

(** 'H' (0x48) with the backlight on: 0x4D, 0x49, 0x8D, 0x89. *)
Example writedata_H :
  sent_by (lcd44780writedata bus_ok 0x48) lcd_4x20 = [0x4D; 0x49; 0x8D; 0x89].
Proof. vm_compute. reflexivity. Qed.

(** "Hello World!" at row 1, column 5 of a 20x4 display: the cursor goes to
    address [rowstart[0] + 4], then twelve characters follow, 52 bus writes
    in all, the 48 of the characters with the register-select bit. *)
Example str_hello_world :
  let sent := sent_by (lcd44780str bus_ok hello 1 5) lcd_4x20 in
  length sent = 52%nat /\
  decode_cmd4 (firstn 4 sent) = [Z.lor 0x80 (0x00 + 4)] /\
  decode_cmd4 (skipn 4 sent) = hello /\
  forallb (fun b => Z.land b REGISTERSET =? REGISTERSET) (skipn 4 sent) = true.
Proof. vm_compute. repeat split; reflexivity. Qed.

(** "Bye!" at row 1, column 19 of 20: only "By" fits. *)
Example str_bye_truncated :
  let sent := sent_by (lcd44780str bus_ok bye 1 19) lcd_4x20 in
  length sent = 12%nat /\ decode_cmd4 (skipn 4 sent) = [66; 121].
Proof. vm_compute. repeat split; reflexivity. Qed.

(** A character at row 3, column 10: the address is 0x14 + 9. *)
Example chr_row3 :
  decode_cmd4 (sent_by (lcd44780chr bus_ok [0x2A] 3 10) lcd_4x20) =
  [Z.lor 0x80 (0x14 + 9); 0x2A].
Proof. vm_compute. reflexivity. Qed.

(** The first write of an initialisation fails: the 28 writes are issued
    all the same and the call returns 0, the status of the last one. *)
Example init_after_a_failed_write :
  match lcd44780init first_write_fails 4 20 initial_world,
        lcd44780init bus_ok 4 20 initial_world with
  | Ok i w, Ok i' w' =>
      i = 0 /\ w = w' /\ length (bus_writes (trace w)) = 28%nat /\
      first_write_fails (firstn 1 (bus_writes (trace w))) = -82
  | _, _ => False
  end.
Proof. vm_compute. repeat split; reflexivity. Qed.

(** * The transport does not steer the initialisation *)

(** C8.  Whatever statuses the transport returns, [lcd44780init] issues the
    same steps to the end, 28 bus writes of which the last four are the
    closing display-control command (display on, cursor off, blink off),
    and returns the transport's status for the last of these writes: an
    error from an earlier write neither stops the sequence, nor repeats a
    step, nor shows in the value returned. *)
Theorem C8_init_returns_last_status
    (status status' : list Z -> Z) (rows cols : Z) (w : world) :
  exists w' pre,
    lcd44780init status rows cols w = Ok (status (bus_writes (trace w'))) w' /\
    lcd44780init status' rows cols w = Ok (status' (bus_writes (trace w'))) w' /\
    trace w' = trace w ++ init_events (bl44780 w) /\
    init_events (bl44780 w) =
      pre ++ map I2cWrite
               (cmd4_bytes (bl44780 w)
                  (Z.lor (Z.lor (Z.lor DISPLAYCONTROL DISPLAYON) BLINKOFF) CURSOROFF)) /\
    length (bus_writes (init_events (bl44780 w))) = 28%nat.
Proof.
  eexists. eexists.
  split; [apply init_run|]. split; [apply init_run|].
  split; [reflexivity|]. split.
  - unfold init_events. rewrite !app_assoc. reflexivity.
  - unfold init_events. rewrite !bus_writes_app, !bus_writes_map. reflexivity.
Qed.

(** * Instances *)

Ltac side :=
  unfold wf_world, is_byte, row_on_display, col_on_display, lcd_4x20,
         initial_world, ORIGIN, BACKLIGHT; cbn;
  repeat split; try lia; try (now left); try (now right); try discriminate.

Lemma C1_witness :
  is_byte 0x48 /\ wf_world lcd_4x20 /\
  four_write_transfer bus_ok (lcd44780writecmd4 bus_ok) 0x48 lcd_4x20 /\
  four_write_transfer bus_ok (lcd44780writedata bus_ok) 0x48 lcd_4x20.
Proof.
  assert (H1 : is_byte 0x48) by side.
  assert (H2 : wf_world lcd_4x20) by side.
  split; [exact H1|]. split; [exact H2|].
  exact (C1_two_nibble_transfers bus_ok 0x48 lcd_4x20 H1 H2).
Defined.

Lemma C5_witness :
  is_byte 0x48 /\ wf_world lcd_4x20 /\
  exists bs,
    length bs = 4%nat /\
    Forall (fun b => Z.land b REGISTERSET = 0) bs /\
    lcd44780writecmd4 bus_ok 0x48 lcd_4x20 =
      Ok (bus_ok (bus_writes (trace lcd_4x20) ++ bs))
         (extend lcd_4x20 (map I2cWrite bs)) /\
    lcd44780writedata bus_ok 0x48 lcd_4x20 =
      let bs' := map (fun b => Z.lor b REGISTERSET) bs in
      Ok (bus_ok (bus_writes (trace lcd_4x20) ++ bs'))
         (extend lcd_4x20 (map I2cWrite bs')).
Proof.
  assert (H1 : is_byte 0x48) by side.
  assert (H2 : wf_world lcd_4x20) by side.
  split; [exact H1|]. split; [exact H2|].
  exact (C5_data_is_command_with_register_select bus_ok 0x48 lcd_4x20 H1 H2).
Defined.

Lemma C6_witness :
  is_byte 0 /\
  exists i w1 b bs,
    lcd44780backlight bus_ok 0 lcd_4x20 = Ok i w1 /\
    bus_writes (trace w1) = bus_writes (trace lcd_4x20) ++ [b] /\
    bus_writes (trace (world_of
      (run_operations bus_ok [Clear; Str hello 1 5; Transfer (Cmd8 0x03)] i w1))) =
      bus_writes (trace w1) ++ bs /\
    Forall (fun x => Z.testbit x 3 = negb (0 =? 0)) (b :: bs).
Proof.
  assert (H : is_byte 0) by side.
  split; [exact H|].
  exact (C6_backlight_bit_in_every_byte bus_ok 0
           [Clear; Str hello 1 5; Transfer (Cmd8 0x03)] lcd_4x20 H).
Defined.

Lemma C4_witness :
  0 <= 0 <= 3 /\
  lcd44780setpos bus_ok 0 4 lcd_4x20 =
    lcd44780writecmd4 bus_ok (to_char (Z.lor 0x80 (rowBaseAddress 0 + 4))) lcd_4x20.
Proof.
  assert (H : 0 <= 0 <= 3) by lia.
  split; [exact H|].
  exact (proj1 (proj2 (C4_setpos_command_byte bus_ok 0 4 lcd_4x20 H))).
Defined.

Lemma C2_witness :
  is_byte 0 /\ is_byte 21 /\ wf_world lcd_4x20 /\
  rejected (lcd44780str bus_ok bye 0 21) lcd_4x20 ROWTOOLOW /\
  rejected (lcd44780chr bus_ok bye 0 21) lcd_4x20 ROWTOOLOW.
Proof.
  assert (H1 : is_byte 0) by side.
  assert (H2 : is_byte 21) by side.
  assert (H3 : wf_world lcd_4x20) by side.
  assert (H4 : 0 < ORIGIN) by (unfold ORIGIN; lia).
  split; [exact H1|]. split; [exact H2|]. split; [exact H3|].
  destruct (C2_refused_before_any_bus_write bus_ok bye 0 21 lcd_4x20 H1 H2 H3)
    as [Hs Hc].
  split; [exact (proj1 Hs H4) | exact (proj1 Hc H4)].
Defined.

Lemma C3_witness :
  wf_world lcd_4x20 /\
  ORIGIN <= 1 <= ORIGIN + lcdrows lcd_4x20 - 1 /\ 1 <= 4 /\
  ORIGIN <= 19 <= ORIGIN + lcdcols lcd_4x20 - 1 /\
  lcd44780str bus_ok bye 1 19 lcd_4x20 =
    final bus_ok (extend lcd_4x20 (map I2cWrite
      (cmd4_bytes BACKLIGHT (position_command 1 19) ++
       flat_map (data_bytes BACKLIGHT) [66; 121]))).
Proof.
  assert (H1 : wf_world lcd_4x20) by side.
  assert (H2 : ORIGIN <= 1 <= ORIGIN + lcdrows lcd_4x20 - 1) by side.
  assert (H3 : 1 <= 4) by lia.
  assert (H4 : ORIGIN <= 19 <= ORIGIN + lcdcols lcd_4x20 - 1) by side.
  split; [exact H1|]. split; [exact H2|]. split; [exact H3|]. split; [exact H4|].
  exact (proj1 (C3_str_writes_what_fits bus_ok bye 1 19 lcd_4x20 H1 H2 H3 H4)).
Defined.

Lemma C7_witness :
  wf_world initial_world /\
  filter is_entry_mode_set (init_commands bus_ok 4 20 initial_world) =
    [Z.lor ENTRYMODESET ENTRYRIGHT].
Proof.
  assert (H : wf_world initial_world) by side.
  split; [exact H|].
  exact (proj1 (proj2 (C7_entry_mode_command bus_ok 4 20 initial_world H))).
Defined.

Lemma C9_witness :
  4 mod 256 <= 4 /\
  exists i w1,
    lcd44780init bus_ok 4 20 initial_world = Ok i w1 /\
    exists j w2, lcd44780str bus_ok bye 4 20 w1 = Ok j w2.
Proof.
  assert (H : 4 mod 256 <= 4) by (vm_compute; discriminate).
  split; [exact H|].
  destruct (proj1 (C9_row_table_index bus_ok) 4 20 initial_world H)
    as (i & w1 & Hi & Hall).
  exists i, w1. split; [exact Hi|].
  exact (proj1 (proj2 (Hall bye 4 20))).
Defined.

Lemma C10_witness :
  -1 < 0 /\ to_uint8 (-1) <> 0 /\ ~ row_on_display lcd_4x20 (-1) /\
  rejected (lcd44780str bus_ok bye (-1) 1) lcd_4x20 ROWTOOHIGH.
Proof.
  assert (H1 : -1 < 0) by lia.
  assert (H2 : to_uint8 (-1) <> 0) by (vm_compute; discriminate).
  assert (H3 : ~ row_on_display lcd_4x20 (-1)).
  { unfold row_on_display. change (to_uint8 (-1)) with 255. cbn. lia. }
  split; [exact H1|]. split; [exact H2|]. split; [exact H3|].
  destruct (C10_too_low_exactly_at_zero bus_ok bye (-1) 1 lcd_4x20) as [Hs _].
  exact (proj1 (proj2 (proj2 Hs)) H1 H2 H3).
Defined.

(** * Counterexamples to the unqualified statements *)

(** Row 0 and column 0, both off a 20x4 display: the column is not what is
    reported. *)
Lemma C2_counterexample :
  is_byte 0 /\ ~ ORIGIN <= 0 <= ORIGIN + lcdcols lcd_4x20 - 1 /\
  lcd44780str bus_ok bye 0 0 lcd_4x20 = refuse ROWTOOLOW lcd_4x20 /\
  lcd44780chr bus_ok bye 0 0 lcd_4x20 = refuse ROWTOOLOW lcd_4x20 /\
  ~ rejected (lcd44780str bus_ok bye 0 0) lcd_4x20 COLTOOLOW /\
  ~ rejected (lcd44780chr bus_ok bye 0 0) lcd_4x20 COLTOOLOW.
Proof.
  split; [side|]. split; [unfold ORIGIN; cbn; lia|].
  split; [vm_compute; reflexivity|]. split; [vm_compute; reflexivity|].
  split; intros [w' [H _]]; vm_compute in H; discriminate.
Qed.

(** Row 5 of a display initialised with five rows is a valid position, and
    writing there reads [rowstart[4]]. *)
Lemma C3_counterexample :
  let w5 := mkWorld BACKLIGHT 5 20 (init_events BACKLIGHT) in
  lcd44780init bus_ok 5 20 initial_world = Ok 0 w5 /\
  wf_world w5 /\
  ORIGIN <= 5 <= ORIGIN + lcdrows w5 - 1 /\
  ORIGIN <= 1 <= ORIGIN + lcdcols w5 - 1 /\
  lcd44780str bus_ok [0x41] 5 1 w5 = OutOfBounds 4 w5 /\
  forall i w', lcd44780str bus_ok [0x41] 5 1 w5 <> Ok i w'.
Proof.
  intros w5.
  assert (E : lcd44780str bus_ok [0x41] 5 1 w5 = OutOfBounds 4 w5)
    by (vm_compute; reflexivity).
  split; [vm_compute; reflexivity|].
  split; [unfold wf_world, is_byte; cbn; lia|].
  split; [unfold ORIGIN; cbn; lia|]. split; [unfold ORIGIN; cbn; lia|].
  split; [exact E|]. intros i w'. rewrite E. discriminate.
Qed.

(** A row count of -1 is at most 4, and is kept as 255: row 5 is then on
    the display and writing there reads [rowstart[4]].  A row count of
    257 is more than 4, and is kept as 1: row 5 is then refused. *)
Lemma C9_counterexample :
  (let w := mkWorld BACKLIGHT 255 20 (init_events BACKLIGHT) in
   -1 <= 4 /\
   lcd44780init bus_ok (-1) 20 initial_world = Ok 0 w /\
   row_on_display w 5 /\ col_on_display w 1 /\
   lcd44780str bus_ok bye 5 1 w = OutOfBounds 4 w) /\
  (let w := mkWorld BACKLIGHT 1 20 (init_events BACKLIGHT) in
   4 < 257 /\
   lcd44780init bus_ok 257 20 initial_world = Ok 0 w /\
   lcd44780str bus_ok bye 5 1 w = refuse ROWTOOHIGH w).
Proof.
  split; cbv zeta.
  - split; [lia|]. split; [vm_compute; reflexivity|].
    split; [vm_compute; split; discriminate|].
    split; [vm_compute; split; discriminate|].
    vm_compute. reflexivity.
  - split; [lia|]. split; [vm_compute; reflexivity|].
    vm_compute. reflexivity.
Qed.

(** The failing input of C7: an initialisation of a 20x4 display sends the
    entry-mode-set command 0x04. *)
Lemma C7_counterexample :
  filter is_entry_mode_set (init_commands bus_ok 4 20 initial_world) = [0x04] /\
  Z.land 0x04 ENTRYINC <> ENTRYINC /\
  Z.land 0x04 ENTRYLEFT <> ENTRYLEFT /\
  0x04 <> Z.lor (Z.lor ENTRYMODESET ENTRYINC) ENTRYLEFT.
Proof.
  split; [vm_compute; reflexivity|].
  repeat split; vm_compute; discriminate.
Qed.

(** -256 is negative and wraps to row 0, which is off the display and is
    reported as too low; and column 0 is not reported as too low when the
    row is off the display. *)
Lemma C10_counterexample :
  (-256 < 0 /\ to_uint8 (-256) = 0 /\ ~ row_on_display lcd_4x20 (-256) /\
   lcd44780str bus_ok bye (-256) 1 lcd_4x20 = refuse ROWTOOLOW lcd_4x20 /\
   ~ rejected (lcd44780str bus_ok bye (-256) 1) lcd_4x20 ROWTOOHIGH) /\
  (to_uint8 0 = 0 /\
   lcd44780str bus_ok bye 9 0 lcd_4x20 = refuse ROWTOOHIGH lcd_4x20 /\
   ~ rejected (lcd44780str bus_ok bye 9 0) lcd_4x20 COLTOOLOW).
Proof.
  split.
  - split; [lia|]. split; [reflexivity|].
    split; [unfold row_on_display; change (to_uint8 (-256)) with 0;
            unfold ORIGIN; lia|].
    split; [vm_compute; reflexivity|].
    intros [w' [H _]]. vm_compute in H. discriminate.
  - split; [reflexivity|]. split; [vm_compute; reflexivity|].
    intros [w' [H _]]. vm_compute in H. discriminate.
Qed.

(** * The transport does not steer any call *)

(** Where a run stopped at the row table, if it did. *)
Definition stopped {A} (o : outcome A) : option Z :=
  match o with
  | Ok _ _ => None
  | OutOfBounds idx _ => Some idx
  end.

(** Two runs that did the same to the world and ended the same way,
    whatever they returned. *)
Definition same_effect {A} (o1 o2 : outcome A) : Prop :=
  world_of o1 = world_of o2 /\ stopped o1 = stopped o2.

Lemma str_same_effect (st1 st2 : list Z -> Z) (text : list Z) (row col : Z)
    (w : world) :
  same_effect (lcd44780str st1 text row col w) (lcd44780str st2 text row col w).
Proof.
  destruct (Z.lt_ge_cases (to_uint8 row) ORIGIN) as [H1|H1].
  { rewrite !str_row_low by assumption. now split. }
  destruct (Z.lt_ge_cases (ORIGIN + lcdrows w - 1) (to_uint8 row)) as [H2|H2].
  { rewrite !str_row_high by lia. now split. }
  assert (Hrow : row_on_display w row) by (unfold row_on_display; lia).
  destruct (Z.lt_ge_cases (to_uint8 col) ORIGIN) as [H3|H3].
  { rewrite !str_col_low by assumption. now split. }
  destruct (Z.lt_ge_cases (ORIGIN + lcdcols w - 1) (to_uint8 col)) as [H4|H4].
  { rewrite !str_col_high by (assumption || lia). now split. }
  assert (Hcol : col_on_display w col) by (unfold col_on_display; lia).
  destruct (Z.le_gt_cases (to_uint8 row) 4) as [H5|H5].
  - rewrite !str_run by assumption. now split.
  - rewrite !str_out_of_bounds by (assumption || lia). now split.
Qed.

Lemma chr_same_effect (st1 st2 : list Z -> Z) (text : list Z) (row col : Z)
    (w : world) :
  same_effect (lcd44780chr st1 text row col w) (lcd44780chr st2 text row col w).
Proof.
  destruct (Z.lt_ge_cases (to_uint8 row) ORIGIN) as [H1|H1].
  { rewrite !chr_row_low by assumption. now split. }
  destruct (Z.lt_ge_cases (ORIGIN + lcdrows w - 1) (to_uint8 row)) as [H2|H2].
  { rewrite !chr_row_high by lia. now split. }
  assert (Hrow : row_on_display w row) by (unfold row_on_display; lia).
  destruct (Z.lt_ge_cases (to_uint8 col) ORIGIN) as [H3|H3].
  { rewrite !chr_col_low by assumption. now split. }
  destruct (Z.lt_ge_cases (ORIGIN + lcdcols w - 1) (to_uint8 col)) as [H4|H4].
  { rewrite !chr_col_high by (assumption || lia). now split. }
  assert (Hcol : col_on_display w col) by (unfold col_on_display; lia).
  destruct (Z.le_gt_cases (to_uint8 row) 4) as [H5|H5].
  - rewrite !chr_run by assumption. now split.
  - rewrite !chr_out_of_bounds by (assumption || lia). now split.
Qed.

Lemma call_same_effect (st1 st2 : list Z -> Z) (c : call) (w : world) :
  same_effect (run_call st1 c w) (run_call st2 c w).
Proof.
  destruct c as [[t|rows cols| | |text row col|text row col|mode blink cursor]
                 |setting];
    cbn [run_call run_operation].
  - rewrite !run_transfer_run. now split.
  - rewrite !init_run. now split.
  - rewrite !clear_run. now split.
  - rewrite !home_run. now split.
  - apply str_same_effect.
  - apply chr_same_effect.
  - rewrite !setdisplay_is_writecmd4, !writecmd4_final. now split.
  - rewrite !backlight_run. now split.
Qed.

(** X19.  No call of the driver looks at what the transport returns.  Run over
    two transports, a sequence of calls does the same to the world, bus
    write for bus write, sleep for sleep and line for line, and stops at
    the row table in the same place if it stops: a failed write never
    cuts a string short, repeats a step or changes a later byte. *)
Theorem calls_ignore_the_transport
    (st1 st2 : list Z -> Z) (cs : list call) (i1 i2 : Z) (w : world) :
  world_of (run_calls st1 cs i1 w) = world_of (run_calls st2 cs i2 w) /\
  stopped (run_calls st1 cs i1 w) = stopped (run_calls st2 cs i2 w).
Proof.
  revert i1 i2 w. induction cs as [|c cs IH]; intros i1 i2 w.
  - now split.
  - cbn [run_calls]. unfold bind.
    destruct (call_same_effect st1 st2 c w) as [Hw Hs].
    destruct (run_call st1 c w) as [a1 w1|idx1 w1],
             (run_call st2 c w) as [a2 w2|idx2 w2];
      cbn [world_of stopped] in Hw, Hs; try discriminate; subst.
    + apply IH.
    + split; [reflexivity|exact Hs].
Qed.

(** * Instances of the further properties *)

Lemma writecmd8_sends_the_low_nibble_witness :
  is_byte 0x03 /\ wf_world lcd_4x20 /\
  exists b1 b2,
    lcd44780writecmd8 bus_ok 0x03 lcd_4x20 =
      final bus_ok (extend lcd_4x20 [I2cWrite b1; I2cWrite b2]) /\
    nibble_transfer (Z.land 0x03 0x0F) b1 b2 /\
    Z.land b1 (Z.lor REGISTERSET READWRITE) = 0 /\
    lcd44780writecmd8 bus_ok (Z.land 0x03 0x0F) lcd_4x20 =
      lcd44780writecmd8 bus_ok 0x03 lcd_4x20.
Proof.
  assert (H1 : is_byte 0x03) by side.
  assert (H2 : wf_world lcd_4x20) by side.
  split; [exact H1|]. split; [exact H2|].
  exact (writecmd8_sends_the_low_nibble bus_ok 0x03 lcd_4x20 H1 H2).
Defined.

Lemma transfer_round_trip_witness :
  is_byte 0x48 /\ wf_world lcd_4x20 /\
  decode_cmd4 (sent_by (lcd44780writedata bus_ok 0x48) lcd_4x20) = [0x48].
Proof.
  assert (H1 : is_byte 0x48) by side.
  assert (H2 : wf_world lcd_4x20) by side.
  split; [exact H1|]. split; [exact H2|].
  exact (proj1 (proj2 (transfer_round_trip bus_ok 0x48 lcd_4x20 H1 H2))).
Defined.

Lemma clear_and_home_sleep_after_the_command_witness :
  wf_world lcd_4x20 /\
  exists bs,
    lcd44780clear bus_ok lcd_4x20 =
      Ok (bus_ok (bus_writes (trace lcd_4x20) ++ bs))
         (extend lcd_4x20 (map I2cWrite bs ++ [Nanosleep 0 100000000])) /\
    length bs = 4%nat /\ decode_cmd4 bs = [CLEARDISPLAY].
Proof.
  assert (H : wf_world lcd_4x20) by side.
  split; [exact H|].
  exact (proj1 (clear_and_home_sleep_after_the_command bus_ok lcd_4x20 H)).
Defined.

Lemma setdisplay_sends_the_three_switches_witness :
  wf_world lcd_4x20 /\
  decode_cmd4 (sent_by (lcd44780setdisplay bus_ok 1 0 7) lcd_4x20) =
    [display_control 1 0 7].
Proof.
  assert (H : wf_world lcd_4x20) by side.
  split; [exact H|].
  exact (proj1 (proj2
    (setdisplay_sends_the_three_switches bus_ok 1 0 7 lcd_4x20 H))).
Defined.

Lemma str_of_nothing_moves_the_cursor_witness :
  row_on_display lcd_4x20 2 /\ col_on_display lcd_4x20 7 /\
  lcd44780str bus_ok [] 2 7 lcd_4x20 =
  lcd44780setpos bus_ok (to_uint8 2 - ORIGIN) (to_uint8 7 - ORIGIN) lcd_4x20.
Proof.
  assert (H1 : row_on_display lcd_4x20 2) by (vm_compute; split; discriminate).
  assert (H2 : col_on_display lcd_4x20 7) by (vm_compute; split; discriminate).
  split; [exact H1|]. split; [exact H2|].
  exact (str_of_nothing_moves_the_cursor bus_ok 2 7 lcd_4x20 H1 H2).
Defined.

Lemma str_round_trip_witness :
  wf_world lcd_4x20 /\
  ORIGIN <= 1 <= ORIGIN + lcdrows lcd_4x20 - 1 /\ 1 <= 4 /\
  ORIGIN <= 19 <= ORIGIN + lcdcols lcd_4x20 - 1 /\
  Forall is_byte bye /\
  decode_cmd4 (sent_by (lcd44780str bus_ok bye 1 19) lcd_4x20) =
    position_command 1 19 :: [66; 121].
Proof.
  assert (H1 : wf_world lcd_4x20) by side.
  assert (H2 : ORIGIN <= 1 <= ORIGIN + lcdrows lcd_4x20 - 1) by side.
  assert (H3 : 1 <= 4) by lia.
  assert (H4 : ORIGIN <= 19 <= ORIGIN + lcdcols lcd_4x20 - 1) by side.
  assert (H5 : Forall is_byte bye) by (repeat constructor; discriminate).
  split; [exact H1|]. split; [exact H2|]. split; [exact H3|].
  split; [exact H4|]. split; [exact H5|].
  exact (proj1 (str_round_trip bus_ok bye 1 19 lcd_4x20 H1 H2 H3 H4 H5)).
Defined.

Lemma chr_round_trip_witness :
  wf_world lcd_4x20 /\
  ORIGIN <= 3 <= ORIGIN + lcdrows lcd_4x20 - 1 /\ 3 <= 4 /\
  ORIGIN <= 10 <= ORIGIN + lcdcols lcd_4x20 - 1 /\
  is_byte (hd 0 bye) /\
  decode_cmd4 (sent_by (lcd44780chr bus_ok bye 3 10) lcd_4x20) =
    [position_command 3 10; hd 0 bye].
Proof.
  assert (H1 : wf_world lcd_4x20) by side.
  assert (H2 : ORIGIN <= 3 <= ORIGIN + lcdrows lcd_4x20 - 1) by side.
  assert (H3 : 3 <= 4) by lia.
  assert (H4 : ORIGIN <= 10 <= ORIGIN + lcdcols lcd_4x20 - 1) by side.
  assert (H5 : is_byte (hd 0 bye)) by side.
  split; [exact H1|]. split; [exact H2|]. split; [exact H3|].
  split; [exact H4|]. split; [exact H5|].
  exact (proj2 (chr_round_trip bus_ok bye 3 10 lcd_4x20 H1 H2 H3 H4 H5)).
Defined.

Lemma calls_keep_the_globals_well_formed_witness :
  wf_world initial_world /\
  wf_world (world_of (run_calls bus_ok
    [Operation (Init 4 20); Backlight 0; Operation (Str hello 1 5)]
    0 initial_world)).
Proof.
  assert (H : wf_world initial_world) by side.
  split; [exact H|].
  exact (calls_keep_the_globals_well_formed bus_ok
    [Operation (Init 4 20); Backlight 0; Operation (Str hello 1 5)]
    0 initial_world H).
Defined.

Lemma calls_never_set_the_read_bit_witness :
  wf_world initial_world /\
  exists bs,
    bus_writes (trace (world_of (run_calls bus_ok
      [Operation (Init 4 20); Backlight 0; Operation (Str hello 1 5)]
      0 initial_world))) = bus_writes (trace initial_world) ++ bs /\
    Forall (fun x => Z.land x READWRITE = 0) bs.
Proof.
  assert (H : wf_world initial_world) by side.
  split; [exact H|].
  exact (calls_never_set_the_read_bit bus_ok
    [Operation (Init 4 20); Backlight 0; Operation (Str hello 1 5)]
    0 initial_world H).
Defined.

Lemma refusals_use_four_codes_witness :
  rejected (lcd44780str bus_ok bye 0 1) lcd_4x20 ROWTOOLOW /\
  ROWTOOLOW <> COLOUTOFRANGE /\
  lcd44780str bus_ok bye 0 1 lcd_4x20 = refuse ROWTOOLOW lcd_4x20.
Proof.
  assert (H : rejected (lcd44780str bus_ok bye 0 1) lcd_4x20 ROWTOOLOW).
  { eexists. split; reflexivity. }
  split; [exact H|].
  exact (proj2 (proj1
    (refusals_use_four_codes bus_ok bye 0 1 lcd_4x20 ROWTOOLOW) H)).
Defined.

Lemma init_stores_the_geometry_modulo_256_witness :
  256 mod 256 = 0 /\
  exists i w1,
    lcd44780init bus_ok 256 20 initial_world = Ok i w1 /\
    lcdrows w1 = 0 /\
    (rejected (lcd44780str bus_ok bye 1 1) w1 ROWTOOLOW \/
     rejected (lcd44780str bus_ok bye 1 1) w1 ROWTOOHIGH).
Proof.
  assert (H : 256 mod 256 = 0) by reflexivity.
  split; [exact H|].
  destruct (init_stores_the_geometry_modulo_256 bus_ok 256 20 initial_world)
    as (i & w1 & Hi & Hr & _ & _ & Hall).
  exists i, w1. split; [exact Hi|]. split; [exact Hr|].
  exact (proj1 (Hall H bye 1 1)).
Defined.

Lemma positions_have_their_own_address_witness :
  1 <= 1 <= 4 /\ 1 <= 20 <= 20 /\ 1 <= 3 <= 4 /\ 1 <= 1 <= 20 /\
  (position_command 1 20 = position_command 3 1 -> 1 = 3 /\ 20 = 1).
Proof.
  assert (H1 : 1 <= 1 <= 4) by lia.
  assert (H2 : 1 <= 20 <= 20) by lia.
  assert (H3 : 1 <= 3 <= 4) by lia.
  assert (H4 : 1 <= 1 <= 20) by lia.
  split; [exact H1|]. split; [exact H2|]. split; [exact H3|]. split; [exact H4|].
  exact (proj1 (positions_have_their_own_address 1 20 3 1 H1 H2 H3 H4)).
Defined.

Lemma init_pauses_between_its_steps_witness :
  wf_world initial_world /\
  exists i w1 evs,
    lcd44780init bus_ok 4 20 initial_world = Ok i w1 /\
    trace w1 = trace initial_world ++ evs /\
    bursts evs 0 = [0; 2; 2; 2; 2; 16; 4]%nat /\
    sleeps evs = repeat 100000000 6 /\
    decode_cmd8 (firstn 8 (bus_writes evs)) = [3; 3; 3; 2].
Proof.
  assert (H : wf_world initial_world) by side.
  split; [exact H|].
  exact (init_pauses_between_its_steps bus_ok 4 20 initial_world H).
Defined.

Lemma setpos_keeps_seven_bits_of_the_address_witness :
  0 <= 1 <= 3 /\
  lcd44780setpos bus_ok 1 (70 + 128) lcd_4x20 = lcd44780setpos bus_ok 1 70 lcd_4x20.
Proof.
  assert (H : 0 <= 1 <= 3) by lia.
  split; [exact H|].
  exact (proj2 (setpos_keeps_seven_bits_of_the_address bus_ok 1 70 lcd_4x20 H)).
Defined.

Lemma chr_is_str_of_the_first_char_witness :
  66 <> 0 /\
  lcd44780chr bus_ok bye 1 19 lcd_4x20 = lcd44780str bus_ok [66] 1 19 lcd_4x20.
Proof.
  assert (H : 66 <> 0) by discriminate.
  split; [exact H|].
  exact (proj1 (chr_is_str_of_the_first_char bus_ok 66 [121; 101; 33] 1 19
                  lcd_4x20) H).
Defined.
